(** * helpers/logger.go: a process-wide logging facade over zap

    Shallow embedding of [src/logger.go] (package [helpers]) and the
    properties of its natural-language specification.

    The Go file keeps one package-level variable, [zapLogger], and
    talks to an external backend (go.uber.org/zap).  The embedding
    threads an explicit [State] through every function: the value of
    [zapLogger], the logger installed by [zap.RedirectStdLog], the
    counters of the logger's sampler, the entries the backend has
    written so far, and what the process reads from outside (the
    clock and whether an output path can be opened).  A Go call
    either returns, panics (nil dereference) or terminates the
    process ([Fatal]); the three ways out are the constructors of
    [outcome]. *)

From stdpp Require Import base option list strings gmap.
From Stdlib Require Import ZArith Ascii.

Local Open Scope string_scope.
Local Open Scope list_scope.
Local Open Scope Z_scope.

(** ** Go values used by the facade *)

(** [type Error struct { message string; rawError string }] *)
Record Error : Type := mkError {
  message : string;
  rawError : string;
}.

(** The Go interface type [error].  An interface value is either nil
    or a pair of a dynamic type and a value; the constructors list the
    dynamic types the properties talk about:
    - [error_nil]: the nil interface;
    - [of_Error]: dynamic type [helpers.Error] (a struct value);
    - [of_ErrorPtr]: dynamic type [*helpers.Error]; the methods of
      [Error] have value receivers, so the pointer type implements
      [error] too; [None] is the nil pointer stored in a non-nil
      interface;
    - [of_errorString]: what [errors.New] returns;
    - [of_wrapError]: a wrapper carrying its own text and a cause
      (what [fmt.Errorf] with the verb %w returns). *)
Inductive error : Type :=
| error_nil
| of_Error (value : Error)
| of_ErrorPtr (p : option Error)
| of_errorString (s : string)
| of_wrapError (msg : string) (cause : error).

(** The values of a [map[string]interface{}]. *)
Inductive Value : Type :=
| VNil
| VBool (b : bool)
| VInt (z : Z)
| VString (s : string).

(** [map[string]interface{}]: [None] is the nil map, [Some ∅] the
    empty map that was made. *)
Definition FieldsMap : Type := option (gmap string Value).

(** [strconv.Quote] on the names used here, which need no escaping:
    the text between two double quotes. *)
Definition quoted (s : string) : string :=
  String "034"%char (s +:+ String "034"%char EmptyString).

(** ** The backend: go.uber.org/zap, as far as the facade uses it *)

Module zapcore.

(** [type Level int8] with its named constants. *)
Definition Level : Type := Z.
Definition DebugLevel : Level := -1.
Definition InfoLevel : Level := 0.
Definition WarnLevel : Level := 1.
Definition ErrorLevel : Level := 2.
Definition DPanicLevel : Level := 3.
Definition PanicLevel : Level := 4.
Definition FatalLevel : Level := 5.
Definition _minLevel : Level := DebugLevel.
Definition _maxLevel : Level := FatalLevel.

(** [func (l Level) Enabled(lvl Level) bool { return lvl >= l }] *)
Definition Enabled (l lvl : Level) : bool := l <=? lvl.

Inductive LevelEncoder : Type :=
| LowercaseLevelEncoder
| CapitalLevelEncoder
| CapitalColorLevelEncoder.

(** A structured field: a key and either a string or a reflected
    value (here always a fields map). *)
Inductive FieldValue : Type :=
| StringType (s : string)
| ReflectType (m : gmap string Value).

Record Field : Type := mkField {
  Key : string;
  Val : FieldValue;
}.

(** What a log call hands to the core: severity, message and the
    fields in call order.  The time stamp, the caller and the stack
    trace that the encoder adds to the emitted record are not part
    of it. *)
Record Entry : Type := mkEntry {
  EntryLevel : Level;
  Message : string;
  Fields : list Field;
}.

(** A core: the threshold it enables from, its encoder's name and
    where it writes. *)
Record Core : Type := mkCore {
  LevelEnabler : Level;
  Encoder : string;
  Sinks : list string;
}.

(** *** The sampler (zapcore/sampler.go) *)

Definition _countersPerLevel : Z := 4096.

(** [time.Second] in nanoseconds, the tick [Build] gives the sampler. *)
Definition tick : Z := 1000000000.

(** [func fnv32a(s string) uint32]: FNV-1a over the bytes of the
    message, in 32-bit arithmetic. *)
Fixpoint fnv32a_from (hash : Z) (s : string) : Z :=
  match s with
  | EmptyString => hash
  | String c s' =>
      fnv32a_from
        ((Z.lxor hash (Z.of_N (Ascii.N_of_ascii c)) * 16777619) mod 2 ^ 32) s'
  end.

Definition fnv32a (s : string) : Z := fnv32a_from 2166136261 s.

(** [type counter struct { resetAt atomic.Int64; counter atomic.Uint64 }] *)
Record counter : Type := mkCounter {
  resetAt : Z;
  count : Z;
}.

(** [type counters [_numLevels][_countersPerLevel]counter], kept as
    a map from the two indices; a missing key is the zero counter. *)
Definition counters : Type := gmap (Z * Z) counter.

Definition zero_counter : counter := {| resetAt := 0; count := 0 |}.

(** [func (cs *counters) get(lvl Level, key string) *counter]: the
    indices of the counter. *)
Definition counter_index (lvl : Level) (key : string) : Z * Z :=
  (lvl - _minLevel, fnv32a key mod _countersPerLevel).

(** [func (c *counter) IncCheckReset(t time.Time, tick time.Duration)
    uint64], for one goroutine: inside the window the counter is
    incremented, past it the counter restarts at 1 and the window is
    moved. *)
Definition IncCheckReset (c : counter) (tn : Z) : Z * counter :=
  if tn <? resetAt c
  then ((count c + 1) mod 2 ^ 64,
        {| resetAt := resetAt c; count := (count c + 1) mod 2 ^ 64 |})
  else (1, {| resetAt := tn + tick; count := 1 |}).

(** The part of [func (s *sampler) Check] that decides: an entry of a
    level inside the level range is counted, and dropped when its
    count is past [first] and not a multiple of [thereafter] further
    on.  Returns whether the entry goes on to the wrapped core, and
    the counters. *)
Definition sampler_Check (first thereafter : Z) (cs : counters)
    (lvl : Level) (msg : string) (tn : Z) : bool * counters :=
  if (_minLevel <=? lvl) && (lvl <=? _maxLevel) then
    let k := counter_index lvl msg in
    let '(n, c) := IncCheckReset (default zero_counter (cs !! k)) tn in
    (negb ((first <? n) &&
           (bool_decide (thereafter = 0) ||
            negb ((n - first) mod thereafter =? 0))),
     <[k := c]> cs)
  else (true, cs).

End zapcore.

Module zap.

(** The part of [zap.Config] that [InitLogger] reads or writes, or
    that [Build] acts on.  [Level] is the level the configuration's
    atomic level holds (both templates set one); [Sampling] holds
    [Initial] and [Thereafter]. *)
Record Config : Type := mkConfig {
  Level : zapcore.Level;
  Development : bool;
  Sampling : option (Z * Z);
  Encoding : string;
  EncodeLevel : zapcore.LevelEncoder;
  OutputPaths : list string;
  ErrorOutputPaths : list string;
}.

Definition NewProductionConfig : Config :=
  {| Level := zapcore.InfoLevel;
     Development := false;
     Sampling := Some (100, 100);
     Encoding := "json";
     EncodeLevel := zapcore.LowercaseLevelEncoder;
     OutputPaths := ["stderr"];
     ErrorOutputPaths := ["stderr"] |}.

Definition NewDevelopmentConfig : Config :=
  {| Level := zapcore.DebugLevel;
     Development := true;
     Sampling := None;
     Encoding := "console";
     EncodeLevel := zapcore.CapitalLevelEncoder;
     OutputPaths := ["stderr"];
     ErrorOutputPaths := ["stderr"] |}.

(** [config.Encoding = s], [config.Level.SetLevel(l)] and
    [config.EncoderConfig.EncodeLevel = e] as record updates. *)
Definition setEncoding (s : string) (c : Config) : Config :=
  {| Level := Level c; Development := Development c;
     Sampling := Sampling c; Encoding := s;
     EncodeLevel := EncodeLevel c; OutputPaths := OutputPaths c;
     ErrorOutputPaths := ErrorOutputPaths c |}.

Definition SetLevel (l : zapcore.Level) (c : Config) : Config :=
  {| Level := l; Development := Development c;
     Sampling := Sampling c; Encoding := Encoding c;
     EncodeLevel := EncodeLevel c; OutputPaths := OutputPaths c;
     ErrorOutputPaths := ErrorOutputPaths c |}.

Definition setEncodeLevel (e : zapcore.LevelEncoder) (c : Config) : Config :=
  {| Level := Level c; Development := Development c;
     Sampling := Sampling c; Encoding := Encoding c;
     EncodeLevel := e; OutputPaths := OutputPaths c;
     ErrorOutputPaths := ErrorOutputPaths c |}.

Definition setOutputPaths (paths : list string) (c : Config) : Config :=
  {| Level := Level c; Development := Development c;
     Sampling := Sampling c; Encoding := Encoding c;
     EncodeLevel := EncodeLevel c; OutputPaths := paths;
     ErrorOutputPaths := ErrorOutputPaths c |}.

(** [*zap.Logger] once built: its core, the sampler wrapped around
    the core if the configuration asked for one ([first] and
    [thereafter], as the unsigned numbers the sampler keeps), and
    the options. *)
Record Logger : Type := mkLogger {
  core : zapcore.Core;
  sampler : option (Z * Z);
  development : bool;
  callerSkip : Z;
}.

Inductive Option : Type :=
| AddCallerSkip (skip : Z).

Definition applyOption (log : Logger) (o : Option) : Logger :=
  match o with
  | AddCallerSkip skip =>
      {| core := core log; sampler := sampler log;
         development := development log;
         callerSkip := callerSkip log + skip |}
  end.

(** The encoders zap registers itself. *)
Definition encoderRegistered (name : string) : bool :=
  bool_decide (name = "json") || bool_decide (name = "console").

(** Opening one output path.  "stdout" and "stderr" always open;
    for any other path the answer comes from outside the process:
    [fs path] is [None] when the path opens and the text of the
    operating system's error otherwise. *)
Definition openSink (fs : string → option string) (path : string)
  : option string :=
  if bool_decide (path = "stdout") || bool_decide (path = "stderr")
  then None
  else fs path.

(** The error of the first path that does not open, if any. *)
Fixpoint openSinks (fs : string → option string) (paths : list string)
  : error :=
  match paths with
  | [] => error_nil
  | path :: rest =>
      match openSink fs path with
      | Some text =>
          of_wrapError ("open sink " +:+ quoted path +:+ ": " +:+ text)
            (of_errorString text)
      | None => openSinks fs rest
      end
  end.

(** [Config.Build(opts ...Option)], which returns a logger pointer
    and an error.  The encoder is looked up by name, then the output
    paths and the error output paths are opened; each of the two
    steps can fail, and the call then returns a nil logger and the
    error.  Otherwise the core is made from the configuration,
    wrapped in a sampler when [Sampling] is set, and the options are
    applied.  (Where several paths fail the real error joins their
    texts; here it is the first one's.) *)
Definition Build (fs : string → option string) (cfg : Config)
    (opts : list Option) : option Logger * error :=
  if negb (encoderRegistered (Encoding cfg)) then
    (None,
     of_errorString
       (if bool_decide (Encoding cfg = "")
        then "no encoder name specified"
        else "no encoder registered for name " +:+ quoted (Encoding cfg)))
  else
    match openSinks fs (OutputPaths cfg ++ ErrorOutputPaths cfg) with
    | error_nil =>
        (Some (foldl applyOption
                 {| core := {| zapcore.LevelEnabler := Level cfg;
                               zapcore.Encoder := Encoding cfg;
                               zapcore.Sinks := OutputPaths cfg |};
                    sampler :=
                      match Sampling cfg with
                      | Some (initial, thereafter) =>
                          Some (initial mod 2 ^ 64, thereafter mod 2 ^ 64)
                      | None => None
                      end;
                    development := Development cfg;
                    callerSkip := 0 |} opts),
         error_nil)
    | err => (None, err)
    end.

(** [zap.String] and [zap.Any].  [Any] chooses the field type from
    the dynamic type of its argument: a string gives a string field,
    a [map[string]interface{}] a reflected field. *)
Definition String (key val : string) : zapcore.Field :=
  zapcore.mkField key (zapcore.StringType val).

Inductive any : Type :=
| any_string (s : string)
| any_map (m : gmap string Value).

Definition Any (key : string) (value : any) : zapcore.Field :=
  match value with
  | any_string s => String key s
  | any_map m => zapcore.mkField key (zapcore.ReflectType m)
  end.

End zap.

(** ** Process state and the ways out of a call *)

(** [zapLogger] is the package variable [var zapLogger *zap.Logger]
    ([None] is the nil pointer); [stdLog] the logger the standard
    library's log package was redirected to; [written] the entries
    written so far, oldest first, each with the logger that wrote it.
    [counts] are the sampler counters of the logger object
    [zapLogger] points to, the only object the facade logs through;
    a logger that has just been built has none.  [clock] lists what
    the successive calls of [time.Now] return, in nanoseconds, and
    [ticks] how many were made; [files] says which output paths open
    (see [zap.openSink]). *)
Record State : Type := mkState {
  zapLogger : option zap.Logger;
  stdLog : option zap.Logger;
  counts : zapcore.counters;
  written : list (zap.Logger * zapcore.Entry);
  clock : nat → Z;
  ticks : nat;
  files : string → option string;
}.

Inductive outcome (A : Type) : Type :=
| Returned (a : A) (s : State)
| Panicked (s : State)
| Exited (code : Z) (s : State).

Arguments Returned {A} a s.
Arguments Panicked {A} s.
Arguments Exited {A} code s.

Definition Go (A : Type) : Type := State -> outcome A.

#[global] Instance Go_ret : MRet Go := fun A a s => Returned a s.

#[global] Instance Go_bind : MBind Go := fun A B f m s =>
  match m s with
  | Returned a s' => f a s'
  | Panicked s' => Panicked s'
  | Exited code s' => Exited code s'
  end.

Definition panic {A : Type} : Go A := fun s => Panicked s.

Definition exit {A : Type} (code : Z) : Go A := fun s => Exited code s.

Definition get_zapLogger : Go (option zap.Logger) :=
  fun s => Returned (zapLogger s) s.

(** The assignment [zapLogger = l]: the variable now points to
    another object (or to none), whose sampler has counted nothing. *)
Definition set_zapLogger (l : option zap.Logger) : Go unit :=
  fun s => Returned tt
    {| zapLogger := l; stdLog := stdLog s; counts := ∅;
       written := written s; clock := clock s; ticks := ticks s;
       files := files s |}.

(** [time.Now().UnixNano()] *)
Definition time_Now : Go Z :=
  fun s => Returned (clock s (ticks s))
    {| zapLogger := zapLogger s; stdLog := stdLog s; counts := counts s;
       written := written s; clock := clock s; ticks := S (ticks s);
       files := files s |}.

(** ** Methods of [*zap.Logger] and [zap.Config], on the process state *)

Module zapLog.

(** [config.Build(opts...)] in the process: the paths are opened
    against the files of the state. *)
Definition Build (cfg : zap.Config) (opts : list zap.Option)
  : Go (option zap.Logger * error) :=
  fun s => Returned (zap.Build (files s) cfg opts) s.

(** The core writes one entry. *)
Definition Write (log : zap.Logger) (ent : zapcore.Entry) : Go unit :=
  fun s => Returned tt
    {| zapLogger := zapLogger s; stdLog := stdLog s; counts := counts s;
       written := written s ++ [(log, ent)]; clock := clock s;
       ticks := ticks s; files := files s |}.

(** [log.Core()]: reads a field of the receiver, so a nil receiver
    panics. *)
Definition Core (log : option zap.Logger) : Go zapcore.Core :=
  match log with
  | None => panic
  | Some l => mret (zap.core l)
  end.

(** [core.Enabled(lvl)] *)
Definition Enabled (c : zapcore.Core) (lvl : zapcore.Level) : bool :=
  zapcore.Enabled (zapcore.LevelEnabler c) lvl.

(** The sampler of the logger, if it has one, counts the entry and
    says whether it goes on to the core. *)
Definition sample (log : zap.Logger) (lvl : zapcore.Level) (msg : string)
    (tn : Z) : Go bool :=
  match zap.sampler log with
  | None => mret true
  | Some (first, thereafter) => fun s =>
      let '(pass, cs) :=
        zapcore.sampler_Check first thereafter (counts s) lvl msg tn in
      Returned pass
        {| zapLogger := zapLogger s; stdLog := stdLog s; counts := cs;
           written := written s; clock := clock s; ticks := ticks s;
           files := files s |}
  end.

(** The shared body of [Debug], [Info], [Warn] and [Error]: an entry
    of a level the core does not enable is dropped at once; otherwise
    the entry is stamped with the time, goes through the sampler and,
    if the sampler lets it pass, is written. *)
Definition log (lvl : zapcore.Level) (log : option zap.Logger)
    (msg : string) (fields : list zapcore.Field) : Go unit :=
  match log with
  | None => panic
  | Some l =>
      if Enabled (zap.core l) lvl
      then
        tn ← time_Now;
        pass ← sample l lvl msg tn;
        if pass : bool
        then Write l (zapcore.mkEntry lvl msg fields)
        else (mret tt : Go unit)
      else mret tt
  end.

Definition Debug := log zapcore.DebugLevel.
Definition Info := log zapcore.InfoLevel.
Definition Warn := log zapcore.WarnLevel.
Definition Error := log zapcore.ErrorLevel.

(** [Fatal] skips the early return: the entry is stamped, written
    under the same conditions as the others, and then [os.Exit(1)]
    is called, whether or not the entry was written. *)
Definition Fatal (log : option zap.Logger)
    (msg : string) (fields : list zapcore.Field) : Go unit :=
  match log with
  | None => panic
  | Some l =>
      tn ← time_Now;
      (if Enabled (zap.core l) zapcore.FatalLevel
       then
         pass ← sample l zapcore.FatalLevel msg tn;
         if pass : bool
         then Write l (zapcore.mkEntry zapcore.FatalLevel msg fields)
         else (mret tt : Go unit)
       else mret tt) ;;
      exit 1
  end.

(** [zap.RedirectStdLog(l)] *)
Definition RedirectStdLog (l : option zap.Logger) : Go unit :=
  match l with
  | None => panic
  | Some l' => fun s =>
      Returned tt
        {| zapLogger := zapLogger s; stdLog := Some l'; counts := counts s;
           written := written s; clock := clock s; ticks := ticks s;
           files := files s |}
  end.

End zapLog.

(** ** Package helpers *)

Definition LogLevelInfo : string := "info".
Definition LogLevelDebug : string := "debug".
Definition LogLevelError : string := "error".

Definition LogFormatJSON : string := "json".
Definition LogFormatText : string := "text".

(** [func NewError(message, rawError string) Error] *)
Definition NewError (message rawError : string) : Error :=
  {| message := message; rawError := rawError |}.

(** [func (e Error) RawError() string] *)
Definition RawError (e : Error) : string := rawError e.

(** [func (e Error) Error() string] *)
Definition Error_Error (e : Error) : string := message e.

(** [errors.New(text)] *)
Definition errors_New (text : string) : error := of_errorString text.

(** The method call [err.Error()] on an interface value: dispatch on
    the dynamic type.  On the nil interface and on a nil [*Error] the
    call dereferences nil and panics. *)
Definition call_Error (err : error) : Go string :=
  match err with
  | error_nil => panic
  | of_Error value => mret (Error_Error value)
  | of_ErrorPtr None => panic
  | of_ErrorPtr (Some value) => mret (Error_Error value)
  | of_errorString s => mret s
  | of_wrapError msg _ => mret msg
  end.

(** [func (l *logger) LogErrorEnabled() bool] *)
Definition LogErrorEnabled : Go bool :=
  zl ← get_zapLogger;
  c ← zapLog.Core zl;
  mret (zapLog.Enabled c zapcore.ErrorLevel).

(** [func (l *logger) LogError(requestID, message string, err error,
    fields map[string]interface{}) error] *)
Definition LogError (requestID message : string) (err : error)
    (fields : FieldsMap) : Go error :=
  match err with
  | of_Error value => mret (of_Error value)
  | _ =>
      let err := match err with
                 | error_nil => errors_New ""
                 | _ => err
                 end in
      match fields with
      | Some m =>
          s ← call_Error err;
          zl ← get_zapLogger;
          zapLog.Error zl message
            [zap.Any "error" (zap.any_string s);
             zap.String "requestId" requestID;
             zap.Any "fields" (zap.any_map m)]
      | None =>
          s ← call_Error err;
          zl ← get_zapLogger;
          zapLog.Error zl message
            [zap.Any "error" (zap.any_string s);
             zap.String "requestId" requestID]
      end ;;
      s ← call_Error err;
      mret (of_Error {| message := message; rawError := s |})
  end.

(** [func (l *logger) LogWarnEnabled() bool] *)
Definition LogWarnEnabled : Go bool :=
  zl ← get_zapLogger;
  c ← zapLog.Core zl;
  mret (zapLog.Enabled c zapcore.WarnLevel).

(** [func (l *logger) LogWarn(requestID, message string,
    fields map[string]interface{})] *)
Definition LogWarn (requestID message : string) (fields : FieldsMap) : Go unit :=
  match fields with
  | Some m =>
      zl ← get_zapLogger;
      zapLog.Warn zl message
        [zap.String "requestId" requestID; zap.Any "fields" (zap.any_map m)]
  | None =>
      zl ← get_zapLogger;
      zapLog.Warn zl message [zap.String "requestId" requestID]
  end.

(** [func (l *logger) LogInfoEnabled() bool] *)
Definition LogInfoEnabled : Go bool :=
  zl ← get_zapLogger;
  c ← zapLog.Core zl;
  mret (zapLog.Enabled c zapcore.InfoLevel).

(** [func (l *logger) LogInfo(requestID, message string,
    fields map[string]interface{})] *)
Definition LogInfo (requestID message : string) (fields : FieldsMap) : Go unit :=
  match fields with
  | Some m =>
      zl ← get_zapLogger;
      zapLog.Info zl message
        [zap.String "requestId" requestID; zap.Any "fields" (zap.any_map m)]
  | None =>
      zl ← get_zapLogger;
      zapLog.Info zl message [zap.String "requestId" requestID]
  end.

(** [func (l *logger) LogDebugEnabled() bool] *)
Definition LogDebugEnabled : Go bool :=
  zl ← get_zapLogger;
  c ← zapLog.Core zl;
  mret (zapLog.Enabled c zapcore.DebugLevel).

(** [func (l *logger) LogDebug(requestID, message string,
    fields map[string]interface{})] *)
Definition LogDebug (requestID message : string) (fields : FieldsMap) : Go unit :=
  match fields with
  | Some m =>
      zl ← get_zapLogger;
      zapLog.Debug zl message
        [zap.String "requestId" requestID; zap.Any "fields" (zap.any_map m)]
  | None =>
      zl ← get_zapLogger;
      zapLog.Debug zl message [zap.String "requestId" requestID]
  end.

(** [func (l *logger) LogFatalEnabled() bool] *)
Definition LogFatalEnabled : Go bool :=
  zl ← get_zapLogger;
  c ← zapLog.Core zl;
  mret (zapLog.Enabled c zapcore.FatalLevel).

(** [func (l *logger) LogFatal(requestID, message string,
    fields map[string]interface{})] *)
Definition LogFatal (requestID message : string) (fields : FieldsMap) : Go unit :=
  match fields with
  | Some m =>
      zl ← get_zapLogger;
      zapLog.Fatal zl message
        [zap.String "requestId" requestID; zap.Any "fields" (zap.any_map m)]
  | None =>
      zl ← get_zapLogger;
      zapLog.Fatal zl message [zap.String "requestId" requestID]
  end.

(** ** Initialisation *)

(** An override callback, a [func] taking a pointer to a
    [zap.Config]: it receives the configuration, may change any of
    its fields and, being arbitrary Go code, may also act on the
    process state or not return. *)
Definition Callback : Type := zap.Config -> Go zap.Config.

Section Initialisation.

(** The constant [internalRequestID] is used by [logger.go] and
    declared in another file of the package; the initialisation
    code is taken over its value. *)
Variable internalRequestID : string.

(** [func getLogFormat(logFormat string) string] *)
Definition getLogFormat (logFormat : string) : Go string :=
  if bool_decide (logFormat = LogFormatJSON) then mret LogFormatJSON
  else if bool_decide (logFormat = LogFormatText) then mret "console"
  else
    LogInfo internalRequestID
      "Invalid log format provided switching to log format json" None ;;
    mret LogFormatJSON.

(** [func getLogLevel(logLevel string) zapcore.Level] *)
Definition getLogLevel (logLevel : string) : Go zapcore.Level :=
  if bool_decide (logLevel = LogLevelDebug) then mret zapcore.DebugLevel
  else if bool_decide (logLevel = LogLevelInfo) then mret zapcore.InfoLevel
  else if bool_decide (logLevel = LogLevelError) then mret zapcore.ErrorLevel
  else
    LogInfo internalRequestID
      "Invalid log level provided switching to log level info" None ;;
    mret zapcore.InfoLevel.

(** [func InitLogger(loglevel, logFormat string, isDev bool,
    configCb ...Callback) error] *)
Definition InitLogger (loglevel logFormat : string) (isDev : bool)
    (configCb : list Callback) : Go error :=
  let config :=
    if isDev then
      let config := zap.NewDevelopmentConfig in
      if bool_decide (logFormat = LogFormatText)
      then zap.setEncodeLevel zapcore.CapitalColorLevelEncoder config
      else config
    else zap.NewProductionConfig in
  encoding ← getLogFormat logFormat;
  let config := zap.setEncoding encoding config in
  level ← getLogLevel loglevel;
  let config := zap.SetLevel level config in
  config ← match configCb with
           | cb :: _ => cb config
           | [] => mret config
           end;
'(built, err) ← zapLog.Build config [zap.AddCallerSkip 1];
  set_zapLogger built ;;
  match err with
  | error_nil =>
      zl ← get_zapLogger;
      zapLog.RedirectStdLog zl ;;
      mret error_nil
  | _ => mret err
  end.

(** [func init() { _ = InitLogger(LogLevelInfo, LogFormatJSON, false) }] *)
Definition init : Go unit :=
  InitLogger LogLevelInfo LogFormatJSON false [] ;;
  mret tt.

End Initialisation.

(** ** States used in the examples *)

(** A clock that starts on 1 January 2026 and advances by one
    microsecond from one reading to the next. *)
Definition example_clock : nat → Z :=
  λ n, Z.of_nat n * 1000 + 1767225600000000000.

(** The process before [init] ran: the package variable holds its
    zero value and nothing was written.  Every output path opens. *)
Definition process_start : State :=
  {| zapLogger := None; stdLog := None; counts := ∅; written := [];
     clock := example_clock; ticks := 0%nat; files := λ _, None |}.

(** The logger [init] installs: production template, unchanged. *)
Definition default_logger : zap.Logger :=
  {| zap.core := {| zapcore.LevelEnabler := zapcore.InfoLevel;
                    zapcore.Encoder := "json";
                    zapcore.Sinks := ["stderr"] |};
     zap.sampler := Some (100, 100);
     zap.development := false;
     zap.callerSkip := 1 |}.

(** [st] once [lg] has been built and installed: both variables hold
    it, its sampler has counted nothing, the rest is as it was. *)
Definition installed (st : State) (lg : zap.Logger) : State :=
  {| zapLogger := Some lg; stdLog := Some lg; counts := ∅;
     written := written st; clock := clock st; ticks := ticks st;
     files := files st |}.

(** [st] once a build has failed: [zapLogger] holds the nil logger
    the build returned, the rest is as it was. *)
Definition uninstalled (st : State) : State :=
  {| zapLogger := None; stdLog := stdLog st; counts := ∅;
     written := written st; clock := clock st; ticks := ticks st;
     files := files st |}.

(** The process once [init] has run. *)
Definition initialised : State := installed process_start default_logger.

(** The process after [InitLogger("error", "json", false)]. *)
Definition error_logger : zap.Logger :=
  {| zap.core := {| zapcore.LevelEnabler := zapcore.ErrorLevel;
                    zapcore.Encoder := "json";
                    zapcore.Sinks := ["stderr"] |};
     zap.sampler := Some (100, 100);
     zap.development := false;
     zap.callerSkip := 1 |}.

Definition error_only : State := installed process_start error_logger.

(** The process after [InitLogger("debug", "text", true)]: the
    development logger, which enables every severity and has no
    sampler. *)
Definition debug_logger : zap.Logger :=
  {| zap.core := {| zapcore.LevelEnabler := zapcore.DebugLevel;
                    zapcore.Encoder := "console";
                    zapcore.Sinks := ["stderr"] |};
     zap.sampler := None;
     zap.development := true;
     zap.callerSkip := 1 |}.

Definition debugging : State := installed process_start debug_logger.

(** The process after an [InitLogger] whose callback set the level
    to Fatal. *)
Definition fatal_logger : zap.Logger :=
  {| zap.core := {| zapcore.LevelEnabler := zapcore.FatalLevel;
                    zapcore.Encoder := "json";
                    zapcore.Sinks := ["stderr"] |};
     zap.sampler := Some (100, 100);
     zap.development := false;
     zap.callerSkip := 1 |}.

Definition fatal_only : State := installed process_start fatal_logger.

(** The initialised process on a machine where no file opens. *)
Definition no_files : State :=
  {| zapLogger := Some default_logger; stdLog := Some default_logger;
     counts := ∅; written := []; clock := example_clock; ticks := 0%nat;
     files := λ _, Some "permission denied" |}.

(** The initialised process in a second in which a hundred entries
    with the message "boom" have already been counted at Error
    severity. *)
Definition flooded : State :=
  {| zapLogger := Some default_logger; stdLog := Some default_logger;
     counts :=
       {[ zapcore.counter_index zapcore.ErrorLevel "boom" :=
            {| zapcore.resetAt := example_clock 0 + 500000000;
               zapcore.count := 100 |} ]};
     written := []; clock := example_clock; ticks := 0%nat;
     files := λ _, None |}.

(** Override callbacks: they set the encoding name, the level or the
    output paths, as [c.Encoding = name], [c.Level.SetLevel(l)] and
    [c.OutputPaths = paths] do. *)
Definition encoding_override (name : string) : Callback :=
  λ c, mret (zap.setEncoding name c).

Definition level_override (l : zapcore.Level) : Callback :=
  λ c, mret (zap.SetLevel l c).

Definition paths_override (paths : list string) : Callback :=
  λ c, mret (zap.setOutputPaths paths c).

(** ** Observations used in the properties *)

(** The state a call leaves behind, however the call ended. *)
Definition state_after {A : Type} (o : outcome A) : State :=
  match o with
  | Returned _ s => s
  | Panicked s => s
  | Exited _ s => s
  end.

(** The text [LogError] records as the cause of [err]: the empty text
    for a nil [err], otherwise what [err.Error()] returns; [None]
    when that call does not return. *)
Definition cause_string (err : error) : option string :=
  match err with
  | error_nil => Some ""
  | of_Error value => Some (message value)
  | of_ErrorPtr p => message <$> p
  | of_errorString s => Some s
  | of_wrapError msg _ => Some msg
  end.

(** [err] has the dynamic type [Error]. *)
Definition already_logged (err : error) : Prop :=
  ∃ value, err = of_Error value.

#[global] Instance already_logged_dec (err : error) : Decision (already_logged err).
Proof.
  destruct err as [|value| | |];
    [right|left; by exists value|right|right|right];
    intros [value' Hv]; discriminate.
Defined.

(** The value stored under [key] in an entry, if the key occurs. *)
Fixpoint lookup_field (key : string) (fs : list zapcore.Field)
  : option zapcore.FieldValue :=
  match fs with
  | [] => None
  | f :: fs' =>
      if bool_decide (zapcore.Key f = key) then Some (zapcore.Val f)
      else lookup_field key fs'
  end.

(** The Error-severity entry [LogError] hands to the backend. *)
Definition error_entry (requestID message cause : string) (fields : FieldsMap)
  : zapcore.Entry :=
  zapcore.mkEntry zapcore.ErrorLevel message
    ([zap.String "error" cause; zap.String "requestId" requestID] ++
     match fields with
     | Some m => [zapcore.mkField "fields" (zapcore.ReflectType m)]
     | None => []
     end).

(** The entry of the other severities. *)
Definition plain_entry (lvl : zapcore.Level) (requestID message : string)
    (fields : FieldsMap) : zapcore.Entry :=
  zapcore.mkEntry lvl message
    ([zap.String "requestId" requestID] ++
     match fields with
     | Some m => [zapcore.mkField "fields" (zapcore.ReflectType m)]
     | None => []
     end).

(** The two fallback entries of the resolution functions. *)
Definition format_fallback_entry (irid : string) : zapcore.Entry :=
  plain_entry zapcore.InfoLevel irid
    "Invalid log format provided switching to log format json" None.

Definition level_fallback_entry (irid : string) : zapcore.Entry :=
  plain_entry zapcore.InfoLevel irid
    "Invalid log level provided switching to log level info" None.

(** [st] with [ws] appended to the written entries. *)
Definition with_written (st : State) (ws : list (zap.Logger * zapcore.Entry))
  : State :=
  {| zapLogger := zapLogger st; stdLog := stdLog st; counts := counts st;
     written := written st ++ ws; clock := clock st; ticks := ticks st;
     files := files st |}.

(** Whether the sampler of [lg] lets an entry of this level and
    message pass at the next reading of the clock: always when [lg]
    has no sampler, otherwise by the count of the entry's counter. *)
Definition admits (st : State) (lg : zap.Logger) (lvl : zapcore.Level)
    (msg : string) : bool :=
  match zap.sampler lg with
  | None => true
  | Some (first, thereafter) =>
      (zapcore.sampler_Check first thereafter (counts st) lvl msg
         (clock st (ticks st))).1
  end.

(** [st] once the entry was stamped and counted: one more reading of
    the clock, and the counters as the sampler of [lg] leaves them. *)
Definition counted (st : State) (lg : zap.Logger) (lvl : zapcore.Level)
    (msg : string) : State :=
  {| zapLogger := zapLogger st; stdLog := stdLog st;
     counts :=
       match zap.sampler lg with
       | None => counts st
       | Some (first, thereafter) =>
           (zapcore.sampler_Check first thereafter (counts st) lvl msg
              (clock st (ticks st))).2
       end;
     written := written st; clock := clock st; ticks := S (ticks st);
     files := files st |}.

(** Whether [lg] writes an entry it is handed in [st]: its core must
    enable the severity and its sampler admit the entry. *)
Definition writes (st : State) (lg : zap.Logger) (ent : zapcore.Entry) : bool :=
  zapLog.Enabled (zap.core lg) (zapcore.EntryLevel ent) &&
  admits st lg (zapcore.EntryLevel ent) (zapcore.Message ent).

(** [st] once [lg] was handed [ent] by [Debug], [Info], [Warn] or
    [Error]: untouched when the core does not enable the severity;
    otherwise stamped and counted, and the entry written when the
    sampler admitted it. *)
Definition handed (st : State) (lg : zap.Logger) (ent : zapcore.Entry) : State :=
  if zapLog.Enabled (zap.core lg) (zapcore.EntryLevel ent) then
    let st' :=
      counted st lg (zapcore.EntryLevel ent) (zapcore.Message ent) in
    if admits st lg (zapcore.EntryLevel ent) (zapcore.Message ent)
    then with_written st' [(lg, ent)]
    else st'
  else st.

(** The same for [Fatal], which stamps the entry before it asks the
    core. *)
Definition handed_fatal (st : State) (lg : zap.Logger) (ent : zapcore.Entry)
  : State :=
  if zapLog.Enabled (zap.core lg) zapcore.FatalLevel then
    let st' := counted st lg zapcore.FatalLevel (zapcore.Message ent) in
    if admits st lg zapcore.FatalLevel (zapcore.Message ent)
    then with_written st' [(lg, ent)]
    else st'
  else
    {| zapLogger := zapLogger st; stdLog := stdLog st; counts := counts st;
       written := written st; clock := clock st; ticks := S (ticks st);
       files := files st |}.

(** A call left both logger variables alone and added at most one
    entry after those already written. *)
Definition appends_at_most_one {A : Type} (st : State) (o : outcome A) : Prop :=
  zapLogger (state_after o) = zapLogger st ∧
  stdLog (state_after o) = stdLog st ∧
  ∃ ws, written (state_after o) = written st ++ ws ∧ (length ws ≤ 1)%nat.

(** The logger [Build] makes from a configuration it accepts, with
    the caller skip [InitLogger] asks for. *)
Definition logger_of (config : zap.Config) : zap.Logger :=
  {| zap.core := {| zapcore.LevelEnabler := zap.Level config;
                    zapcore.Encoder := zap.Encoding config;
                    zapcore.Sinks := zap.OutputPaths config |};
     zap.sampler :=
       match zap.Sampling config with
       | Some (initial, thereafter) =>
           Some (initial mod 2 ^ 64, thereafter mod 2 ^ 64)
       | None => None
       end;
     zap.development := zap.Development config;
     zap.callerSkip := 1 |}.

(** The configuration [InitLogger] has assembled when it reaches the
    callback: lines 31 to 41 of the source, given what the two
    resolution functions returned. *)
Definition resolved_config (isDev : bool) (logFormat encoding : string)
    (level : zapcore.Level) : zap.Config :=
  zap.SetLevel level
    (zap.setEncoding encoding
       (if isDev then
          if bool_decide (logFormat = LogFormatText)
          then zap.setEncodeLevel zapcore.CapitalColorLevelEncoder
                 zap.NewDevelopmentConfig
          else zap.NewDevelopmentConfig
        else zap.NewProductionConfig)).

(** The callback step of [InitLogger]: lines 42 to 44. *)
Definition run_callback (configCb : list Callback) (config : zap.Config)
  : Go zap.Config :=
  match configCb with
  | cb :: _ => cb config
  | [] => mret config
  end.

(** What [InitLogger] does with the final configuration: lines 45 to
    51 of the source. *)
Definition build_and_install (config : zap.Config) : Go error :=
  '(built, err) ← zapLog.Build config [zap.AddCallerSkip 1];
  set_zapLogger built ;;
  match err with
  | error_nil =>
      zl ← get_zapLogger;
      zapLog.RedirectStdLog zl ;;
      mret error_nil
  | _ => mret err
  end.

(** In the run of [InitLogger] from [st] with level [logLevel], the
    callback that ran, if one ran and returned, left the level of
    the configuration as it was resolved. *)
Definition level_kept_in_run (irid logLevel logFormat : string) (isDev : bool)
    (configCb : list Callback) (st : State) : Prop :=
  match configCb with
  | [] => True
  | cb :: _ =>
      ∀ encoding st1 level st2 config st3,
        getLogFormat irid logFormat st = Returned encoding st1 →
        getLogLevel irid logLevel st1 = Returned level st2 →
        cb (resolved_config isDev logFormat encoding level) st2 =
          Returned config st3 →
        zap.Level config = level
  end.

(** In the run of [InitLogger] from [st], the callback that ran, if
    one ran and returned, left the process state as it found it. *)
Definition pure_in_run (irid logLevel logFormat : string) (isDev : bool)
    (configCb : list Callback) (st : State) : Prop :=
  match configCb with
  | [] => True
  | cb :: _ =>
      ∀ encoding st1 level st2 config st3,
        getLogFormat irid logFormat st = Returned encoding st1 →
        getLogLevel irid logLevel st1 = Returned level st2 →
        cb (resolved_config isDev logFormat encoding level) st2 =
          Returned config st3 →
        st3 = st2
  end.

(** ** The specification's sentences, as they are worded *)

(** Idempotence for every error value: the inner call writes exactly
    one Error-severity entry, the outer call writes none and returns
    the inner call's value. *)
Definition nested_logs_exactly_once (rid msg : string) (e : error)
    (st : State) : Prop :=
  ∃ v st1 st2 w,
    LogError rid msg e None st = Returned v st1 ∧
    LogError rid msg v None st1 = Returned v st2 ∧
    written st1 = written st ++ [w] ∧
    zapcore.EntryLevel w.2 = zapcore.ErrorLevel ∧
    written st2 = written st1.

(** The fallback on the level: the call succeeds, the new threshold
    is Info, and exactly one Info-severity entry was written. *)
Definition invalid_level_writes_one (irid logLevel logFormat : string)
    (isDev : bool) (st : State) : Prop :=
  ∃ st' lg' w,
    InitLogger irid logLevel logFormat isDev [] st = Returned error_nil st' ∧
    zapLogger st' = Some lg' ∧
    zapcore.LevelEnabler (zap.core lg') = zapcore.InfoLevel ∧
    written st' = written st ++ [w] ∧
    zapcore.EntryLevel w.2 = zapcore.InfoLevel.

(** The same for the format: the new encoding is json, and exactly
    one Info-severity entry was written. *)
Definition invalid_format_writes_one (irid logLevel logFormat : string)
    (isDev : bool) (st : State) : Prop :=
  ∃ st' lg' w,
    InitLogger irid logLevel logFormat isDev [] st = Returned error_nil st' ∧
    zapLogger st' = Some lg' ∧
    zapcore.Encoder (zap.core lg') = "json" ∧
    written st' = written st ++ [w] ∧
    zapcore.EntryLevel w.2 = zapcore.InfoLevel.

(** The enabled checks after any successful call with level "error". *)
Definition error_level_disables_below (irid logFormat : string) (isDev : bool)
    (configCb : list Callback) (st : State) : Prop :=
  ∀ st',
    InitLogger irid LogLevelError logFormat isDev configCb st =
      Returned error_nil st' →
    LogDebugEnabled st' = Returned false st' ∧
    LogInfoEnabled st' = Returned false st' ∧
    LogErrorEnabled st' = Returned true st'.

(** Atomic failure: a call whose build fails returns an error and
    leaves [zapLogger] as it was. *)
Definition failed_init_keeps_logger (irid logLevel logFormat : string)
    (isDev : bool) (configCb : list Callback) (st : State) : Prop :=
  ∀ err st',
    InitLogger irid logLevel logFormat isDev configCb st = Returned err st' →
    err ≠ error_nil →
    zapLogger st' = zapLogger st.

(** Nil-safety: the call with a nil cause returns an [Error] with an
    empty [rawError] and has written one Error-severity entry whose
    "error" field is empty. *)
Definition nil_cause_writes_one (rid msg : string) (st : State) : Prop :=
  ∃ e st' w,
    LogError rid msg error_nil None st = Returned (of_Error e) st' ∧
    RawError e = "" ∧
    written st' = written st ++ [w] ∧
    zapcore.EntryLevel w.2 = zapcore.ErrorLevel ∧
    lookup_field "error" (zapcore.Fields w.2) = Some (zapcore.StringType "").

(** Field omission for one log call: with nil fields it writes an
    entry without the "fields" key, with an empty map an entry that
    has the key with an empty object. *)
Definition fields_shapes_differ {A : Type} (call : FieldsMap → Go A)
    (st : State) : Prop :=
  ∃ w_nil w_empty,
    written (state_after (call None st)) = written st ++ [w_nil] ∧
    written (state_after (call (Some ∅) st)) = written st ++ [w_empty] ∧
    lookup_field "fields" (zapcore.Fields w_nil.2) = None ∧
    lookup_field "fields" (zapcore.Fields w_empty.2) =
      Some (zapcore.ReflectType ∅).

(** A pointer to an [Error] is logged again: a new Error-severity
    entry is written and a fresh [Error] returned. *)
Definition pointer_writes_again (rid msg : string) (inner : Error)
    (st : State) : Prop :=
  ∃ e st' w,
    LogError rid msg (of_ErrorPtr (Some inner)) None st =
      Returned (of_Error e) st' ∧
    written st' = written st ++ [w] ∧
    zapcore.EntryLevel w.2 = zapcore.ErrorLevel.

(** ** Auxiliary facts *)

Ltac run_go :=
  cbv [mbind mret Go_bind Go_ret get_zapLogger set_zapLogger panic exit
       zapLog.Core zapLog.Error zapLog.Info zapLog.Warn zapLog.Debug
       zapLog.RedirectStdLog zapLog.Build errors_New call_Error].

(** [init] on a fresh process installs the default logger. *)
Lemma init_initialised (irid : string) :
  init irid process_start = Returned tt initialised.
Proof. reflexivity. Qed.

Lemma with_written_nil (st : State) : with_written st [] = st.
Proof. destruct st. unfold with_written. simpl. by rewrite app_nil_r. Qed.

(** The backend's log call on a logger: the state is [handed]. *)
Lemma log_handed (lvl : zapcore.Level) (lg : zap.Logger) (msg : string)
    (fs : list zapcore.Field) (st : State) :
  zapLog.log lvl (Some lg) msg fs st =
    Returned tt (handed st lg (zapcore.mkEntry lvl msg fs)).
Proof.
  unfold zapLog.log, handed, admits, counted. simpl.
  destruct (zapLog.Enabled (zap.core lg) lvl); [|reflexivity].
  cbv [mbind mret Go_bind Go_ret time_Now zapLog.sample zapLog.Write].
  destruct (zap.sampler lg) as [[first thereafter]|]; simpl;
    [destruct (zapcore.sampler_Check _ _ _ _ _ _) as [[|] cs]|]; reflexivity.
Qed.

Lemma Fatal_handed (lg : zap.Logger) (msg : string)
    (fs : list zapcore.Field) (st : State) :
  zapLog.Fatal (Some lg) msg fs st =
    Exited 1 (handed_fatal st lg (zapcore.mkEntry zapcore.FatalLevel msg fs)).
Proof.
  unfold zapLog.Fatal, handed_fatal, admits, counted. simpl.
  cbv [mbind mret Go_bind Go_ret time_Now zapLog.sample zapLog.Write exit].
  destruct (zapLog.Enabled (zap.core lg) zapcore.FatalLevel); [|reflexivity].
  destruct (zap.sampler lg) as [[first thereafter]|]; simpl;
    [destruct (zapcore.sampler_Check _ _ _ _ _ _) as [[|] cs]|]; reflexivity.
Qed.

(** Being handed an entry changes neither logger variable nor the
    files, and adds the entry to the written ones exactly when the
    logger writes it. *)
Lemma handed_frame (st : State) (lg : zap.Logger) (ent : zapcore.Entry) :
  zapLogger (handed st lg ent) = zapLogger st ∧
  stdLog (handed st lg ent) = stdLog st ∧
  files (handed st lg ent) = files st ∧
  written (handed st lg ent) =
    written st ++ (if writes st lg ent then [(lg, ent)] else []).
Proof.
  unfold handed, writes.
  destruct (zapLog.Enabled _ _); simpl;
    [destruct (admits _ _ _ _); simpl|]; by rewrite ?app_nil_r.
Qed.

Lemma handed_fatal_frame (st : State) (lg : zap.Logger) (ent : zapcore.Entry) :
  zapcore.EntryLevel ent = zapcore.FatalLevel →
  zapLogger (handed_fatal st lg ent) = zapLogger st ∧
  stdLog (handed_fatal st lg ent) = stdLog st ∧
  written (handed_fatal st lg ent) =
    written st ++ (if writes st lg ent then [(lg, ent)] else []).
Proof.
  intros Hl. unfold handed_fatal, writes. rewrite Hl.
  destruct (zapLog.Enabled _ _); simpl;
    [destruct (admits _ _ _ _); simpl|]; by rewrite ?app_nil_r.
Qed.

(** A logger without a sampler admits every entry, and so does a
    sampler that has no counter yet for the entry, as long as it
    lets a first entry through. *)
Lemma admits_without_sampler (st : State) (lg : zap.Logger)
    (lvl : zapcore.Level) (msg : string) :
  zap.sampler lg = None → admits st lg lvl msg = true.
Proof. intros H. unfold admits. by rewrite H. Qed.

Lemma admits_first_entry (st : State) (lg : zap.Logger)
    (lvl : zapcore.Level) (msg : string) (first thereafter : Z) :
  zap.sampler lg = Some (first, thereafter) →
  1 ≤ first →
  counts st !! zapcore.counter_index lvl msg = None →
  admits st lg lvl msg = true.
Proof.
  intros Hs Hf Hc. unfold admits, zapcore.sampler_Check. rewrite Hs.
  destruct (_ && _); [|reflexivity].
  rewrite Hc. unfold zapcore.IncCheckReset. simpl.
  assert (Hlt : (first <? 1) = false) by (apply Z.ltb_ge; lia).
  destruct (_ <? 0); simpl; try change ((0 + 1) mod 2 ^ 64) with 1;
    rewrite Hlt; reflexivity.
Qed.

(** The plain log calls with a logger in place. *)
Lemma LogDebug_handed (rid msg : string) (fields : FieldsMap) (st : State)
    (lg : zap.Logger) :
  zapLogger st = Some lg →
  LogDebug rid msg fields st =
    Returned tt (handed st lg (plain_entry zapcore.DebugLevel rid msg fields)).
Proof.
  intros Hlg. destruct fields; unfold LogDebug; run_go; rewrite Hlg;
    apply log_handed.
Qed.

Lemma LogInfo_handed (rid msg : string) (fields : FieldsMap) (st : State)
    (lg : zap.Logger) :
  zapLogger st = Some lg →
  LogInfo rid msg fields st =
    Returned tt (handed st lg (plain_entry zapcore.InfoLevel rid msg fields)).
Proof.
  intros Hlg. destruct fields; unfold LogInfo; run_go; rewrite Hlg;
    apply log_handed.
Qed.

Lemma LogWarn_handed (rid msg : string) (fields : FieldsMap) (st : State)
    (lg : zap.Logger) :
  zapLogger st = Some lg →
  LogWarn rid msg fields st =
    Returned tt (handed st lg (plain_entry zapcore.WarnLevel rid msg fields)).
Proof.
  intros Hlg. destruct fields; unfold LogWarn; run_go; rewrite Hlg;
    apply log_handed.
Qed.

Lemma LogFatal_handed (rid msg : string) (fields : FieldsMap) (st : State)
    (lg : zap.Logger) :
  zapLogger st = Some lg →
  LogFatal rid msg fields st =
    Exited 1
      (handed_fatal st lg (plain_entry zapcore.FatalLevel rid msg fields)).
Proof.
  intros Hlg. destruct fields; unfold LogFatal; run_go; rewrite Hlg;
    apply Fatal_handed.
Qed.

(** [LogError] on a value of dynamic type [Error]: returned as it
    is, state untouched. *)
Lemma LogError_logged (rid msg : string) (value : Error) (fields : FieldsMap)
    (st : State) :
  LogError rid msg (of_Error value) fields st = Returned (of_Error value) st.
Proof. reflexivity. Qed.

(** [LogError] on any other value whose [Error()] returns, with a
    logger in place: one entry is handed to the logger and a new
    [Error] comes back. *)
Lemma LogError_unlogged (rid msg : string) (err : error) (fields : FieldsMap)
    (st : State) (lg : zap.Logger) (cause : string) :
  ¬ already_logged err →
  zapLogger st = Some lg →
  cause_string err = Some cause →
  LogError rid msg err fields st =
    Returned (of_Error (NewError msg cause))
      (handed st lg (error_entry rid msg cause fields)).
Proof.
  intros Hnot Hlg Hcause.
  destruct err as [|value|[value|]|s|m c]; simpl in Hcause;
    try discriminate; try (exfalso; apply Hnot; by eexists);
    injection Hcause as <-;
    destruct fields as [m'|]; unfold LogError; run_go; rewrite Hlg;
    rewrite log_handed; reflexivity.
Qed.

(** A value that is not already an [Error] never comes back as it
    was: [LogError] either does not return or returns a new [Error]. *)
Lemma LogError_returns_Error (rid msg : string) (err : error)
    (fields : FieldsMap) (st st' : State) (v : error) :
  LogError rid msg err fields st = Returned v st' →
  already_logged v ∧ (¬ already_logged err → v ≠ err).
Proof.
  intros H.
  destruct (decide (already_logged err)) as [[value ->]|Hnot].
  { rewrite LogError_logged in H. injection H as <- <-.
    split; [by eexists|]. intros Hn. exfalso. apply Hn. by eexists. }
  destruct (zapLogger st) as [lg|] eqn:Hlg.
  - destruct (cause_string err) as [cause|] eqn:Hc.
    + rewrite (LogError_unlogged _ _ _ _ _ _ _ Hnot Hlg Hc) in H.
      injection H as <- <-. split; [by eexists|].
      intros _ Heq. apply Hnot. rewrite <- Heq. by eexists.
    + destruct err as [| |[value|]| |]; try discriminate.
      destruct fields; discriminate.
  - destruct err as [|value|[value|]|s|m c]; destruct fields;
      unfold LogError in H; revert H; run_go; rewrite ?Hlg;
      try discriminate.
    all: exfalso; apply Hnot; by eexists.
Qed.

(** ** Resolution of format and level *)

Lemma getLogFormat_invalid (irid logFormat : string) (st : State)
    (lg : zap.Logger) :
  logFormat ≠ "json" → logFormat ≠ "text" →
  zapLogger st = Some lg →
  getLogFormat irid logFormat st =
    Returned "json" (handed st lg (format_fallback_entry irid)).
Proof.
  intros Hj Ht Hlg. unfold getLogFormat, LogFormatJSON, LogFormatText.
  rewrite !bool_decide_eq_false_2 by done.
  cbv [mbind Go_bind]. by rewrite (LogInfo_handed _ _ _ _ lg Hlg).
Qed.

Lemma getLogLevel_invalid (irid logLevel : string) (st : State)
    (lg : zap.Logger) :
  logLevel ≠ "debug" → logLevel ≠ "info" → logLevel ≠ "error" →
  zapLogger st = Some lg →
  getLogLevel irid logLevel st =
    Returned zapcore.InfoLevel (handed st lg (level_fallback_entry irid)).
Proof.
  intros Hd Hi He Hlg.
  unfold getLogLevel, LogLevelDebug, LogLevelInfo, LogLevelError.
  rewrite !bool_decide_eq_false_2 by done.
  cbv [mbind Go_bind]. by rewrite (LogInfo_handed _ _ _ _ lg Hlg).
Qed.

(** With a logger in place both resolution functions return, leave
    the logger where it is, and the encoding they give is one the
    backend knows. *)
Lemma getLogFormat_returns (irid logFormat : string) (st : State)
    (lg : zap.Logger) :
  zapLogger st = Some lg →
  ∃ encoding st1,
    getLogFormat irid logFormat st = Returned encoding st1 ∧
    zapLogger st1 = Some lg ∧
    (encoding = "json" ∨ encoding = "console").
Proof.
  intros Hlg.
  destruct (decide (logFormat = "json")) as [->|Hj];
    [exists "json", st; by auto|].
  destruct (decide (logFormat = "text")) as [->|Ht];
    [exists "console", st; by auto|].
  rewrite (getLogFormat_invalid irid logFormat st lg Hj Ht Hlg).
  eexists _, _. split; [reflexivity|].
  split; [|by auto]. by rewrite (proj1 (handed_frame _ _ _)).
Qed.

Lemma getLogLevel_returns (irid logLevel : string) (st : State)
    (lg : zap.Logger) :
  zapLogger st = Some lg →
  ∃ level st1, getLogLevel irid logLevel st = Returned level st1.
Proof.
  intros Hlg.
  destruct (decide (logLevel = "debug")) as [->|Hd]; [by eexists _, _|].
  destruct (decide (logLevel = "info")) as [->|Hi]; [by eexists _, _|].
  destruct (decide (logLevel = "error")) as [->|He]; [by eexists _, _|].
  rewrite (getLogLevel_invalid irid logLevel st lg Hd Hi He Hlg).
  by eexists _, _.
Qed.

(** The resolution functions, when they return, have left both
    logger variables and the files alone and added at most one
    entry; the level is one of three, the encoding one of two. *)
Lemma getLogFormat_frame (irid logFormat : string) (st st1 : State)
    (encoding : string) :
  getLogFormat irid logFormat st = Returned encoding st1 →
  (encoding = "json" ∨ encoding = "console") ∧
  zapLogger st1 = zapLogger st ∧ stdLog st1 = stdLog st ∧
  files st1 = files st ∧
  ∃ ws, written st1 = written st ++ ws ∧ (length ws ≤ 1)%nat.
Proof.
  assert (Hsame : ∃ ws, written st = written st ++ ws ∧ (length ws ≤ 1)%nat).
  { exists []. rewrite app_nil_r. split; [done|simpl; lia]. }
  destruct (decide (logFormat = "json")) as [->|Hj].
  { intros H. injection H as <- <-. by auto 10. }
  destruct (decide (logFormat = "text")) as [->|Ht].
  { intros H. injection H as <- <-. by auto 10. }
  destruct (zapLogger st) as [lg|] eqn:Hlg.
  - rewrite (getLogFormat_invalid irid logFormat st lg Hj Ht Hlg).
    intros H. injection H as <- <-.
    destruct (handed_frame st lg (format_fallback_entry irid))
      as (Hz & Hs & Hf & Hw).
    rewrite Hz, Hs, Hf, Hw, Hlg. repeat split; auto.
    eexists. split; [reflexivity|]. destruct (writes _ _ _); simpl; lia.
  - unfold getLogFormat, LogFormatJSON, LogFormatText, LogInfo.
    rewrite !bool_decide_eq_false_2 by done. run_go. rewrite Hlg.
    discriminate.
Qed.

Lemma getLogLevel_frame (irid logLevel : string) (st st1 : State)
    (level : zapcore.Level) :
  getLogLevel irid logLevel st = Returned level st1 →
  (level = zapcore.DebugLevel ∨ level = zapcore.InfoLevel ∨
   level = zapcore.ErrorLevel) ∧
  zapLogger st1 = zapLogger st ∧ stdLog st1 = stdLog st ∧
  files st1 = files st ∧
  ∃ ws, written st1 = written st ++ ws ∧ (length ws ≤ 1)%nat.
Proof.
  assert (Hsame : ∃ ws, written st = written st ++ ws ∧ (length ws ≤ 1)%nat).
  { exists []. rewrite app_nil_r. split; [done|simpl; lia]. }
  destruct (decide (logLevel = "debug")) as [->|Hd].
  { intros H. injection H as <- <-. by auto 10. }
  destruct (decide (logLevel = "info")) as [->|Hi].
  { intros H. injection H as <- <-. by auto 10. }
  destruct (decide (logLevel = "error")) as [->|He].
  { intros H. injection H as <- <-. by auto 10. }
  destruct (zapLogger st) as [lg|] eqn:Hlg.
  - rewrite (getLogLevel_invalid irid logLevel st lg Hd Hi He Hlg).
    intros H. injection H as <- <-.
    destruct (handed_frame st lg (level_fallback_entry irid))
      as (Hz & Hs & Hf & Hw).
    rewrite Hz, Hs, Hf, Hw, Hlg. repeat split; auto.
    eexists. split; [reflexivity|]. destruct (writes _ _ _); simpl; lia.
  - unfold getLogLevel, LogLevelDebug, LogLevelInfo, LogLevelError, LogInfo.
    rewrite !bool_decide_eq_false_2 by done. run_go. rewrite Hlg.
    discriminate.
Qed.

(** [InitLogger] is resolution, then the first callback if there is
    one, then build and install. *)
Lemma InitLogger_unfold (irid logLevel logFormat : string) (isDev : bool)
    (configCb : list Callback) (st : State) :
  InitLogger irid logLevel logFormat isDev configCb st =
    (encoding ← getLogFormat irid logFormat;
     level ← getLogLevel irid logLevel;
     config ← run_callback configCb
                (resolved_config isDev logFormat encoding level);
     build_and_install config) st.
Proof. reflexivity. Qed.

Lemma openSinks_cases (fs : string → option string) (paths : list string) :
  zap.openSinks fs paths = error_nil ∨
  ∃ text cause, zap.openSinks fs paths = of_wrapError text cause.
Proof.
  induction paths as [|path rest IH]; simpl; [by left|].
  destruct (zap.openSink fs path); [right; by eexists _, _|exact IH].
Qed.

(** The two ways [build_and_install] ends: the logger made from the
    configuration is installed and nil returned, or an error is
    returned and [zapLogger] holds the nil logger of the failed
    build. *)
Lemma build_and_install_cases (config : zap.Config) (st : State) :
  (zap.encoderRegistered (zap.Encoding config) = true ∧
   zap.openSinks (files st)
     (zap.OutputPaths config ++ zap.ErrorOutputPaths config) = error_nil ∧
   build_and_install config st =
     Returned error_nil (installed st (logger_of config))) ∨
  (∃ err, err ≠ error_nil ∧
     build_and_install config st = Returned err (uninstalled st)).
Proof.
  unfold build_and_install, zapLog.Build, zap.Build. run_go.
  destruct (zap.encoderRegistered (zap.Encoding config)); simpl.
  - destruct (openSinks_cases (files st)
                (zap.OutputPaths config ++ zap.ErrorOutputPaths config))
      as [Ho|(text & cause & Ho)]; rewrite Ho; simpl.
    + left. by repeat split.
    + right. eexists. split; [|reflexivity]. discriminate.
  - right. eexists. split; [|reflexivity]. discriminate.
Qed.

(** The configurations [InitLogger] assembles by itself are built
    wherever the process runs: their encoding is known and they
    write to stderr. *)
Lemma build_and_install_resolved (isDev : bool) (logFormat encoding : string)
    (level : zapcore.Level) (st : State) :
  encoding = "json" ∨ encoding = "console" →
  build_and_install (resolved_config isDev logFormat encoding level) st =
    Returned error_nil
      (installed st (logger_of (resolved_config isDev logFormat encoding level))).
Proof.
  intros Henc.
  destruct (build_and_install_cases
              (resolved_config isDev logFormat encoding level) st)
    as [(_ & _ & H)|(err & Hne & H)]; [exact H|].
  exfalso. revert H. unfold build_and_install, zapLog.Build, zap.Build.
  run_go. unfold resolved_config.
  destruct Henc as [-> | ->]; destruct isDev; simpl;
    try destruct (bool_decide _); simpl; intros H; injection H as <- _; done.
Qed.

(** Without a callback and with a logger in place, [InitLogger]
    succeeds: the new logger has the resolved level and encoding, and
    only the resolution functions wrote anything. *)
Lemma InitLogger_no_callback (irid logLevel logFormat : string) (isDev : bool)
    (st : State) (lg : zap.Logger) :
  zapLogger st = Some lg →
  ∃ encoding level st1 st2 lg',
    getLogFormat irid logFormat st = Returned encoding st1 ∧
    zapLogger st1 = Some lg ∧
    getLogLevel irid logLevel st1 = Returned level st2 ∧
    InitLogger irid logLevel logFormat isDev [] st =
      Returned error_nil (installed st2 lg') ∧
    zapcore.LevelEnabler (zap.core lg') = level ∧
    zapcore.Encoder (zap.core lg') = encoding.
Proof.
  intros Hlg.
  destruct (getLogFormat_returns irid logFormat st lg Hlg)
    as (encoding & st1 & Hf & Hlg1 & Henc).
  destruct (getLogLevel_returns irid logLevel st1 lg Hlg1) as (level & st2 & Hl).
  exists encoding, level, st1, st2,
    (logger_of (resolved_config isDev logFormat encoding level)).
  split; [done|]. split; [done|]. split; [done|].
  split; [|by split].
  rewrite InitLogger_unfold. cbv [mbind Go_bind]. rewrite Hf, Hl.
  cbv [run_callback mret Go_ret].
  by apply build_and_install_resolved.
Qed.

(** With valid arguments and no callback the logger installed does
    not depend on the state the call starts from. *)
Lemma InitLogger_valid_any_state (irid logLevel logFormat : string)
    (isDev : bool) :
  logLevel = "debug" ∨ logLevel = "info" ∨ logLevel = "error" →
  logFormat = "json" ∨ logFormat = "text" →
  ∃ lg', ∀ st,
    InitLogger irid logLevel logFormat isDev [] st =
      Returned error_nil (installed st lg').
Proof.
  intros [-> | [-> | ->]] [-> | ->]; destruct isDev;
    eexists; intros st; vm_compute; reflexivity.
Qed.

(** [error_only], [debugging] and [fatal_only] are where the calls
    named in their definitions take the initialised process. *)
Lemma InitLogger_error_only (irid : string) :
  InitLogger irid "error" "json" false [] initialised =
    Returned error_nil error_only.
Proof. reflexivity. Qed.

Lemma InitLogger_debugging (irid : string) :
  InitLogger irid "debug" "text" true [] initialised =
    Returned error_nil debugging.
Proof. reflexivity. Qed.

Lemma InitLogger_fatal_only (irid : string) :
  InitLogger irid "info" "json" false [level_override zapcore.FatalLevel]
    initialised = Returned error_nil fatal_only.
Proof. reflexivity. Qed.

(** Whenever [InitLogger] returns an error, [zapLogger] is nil
    afterwards, whatever it was before. *)
Lemma InitLogger_error_clears_logger (irid logLevel logFormat : string)
    (isDev : bool) (configCb : list Callback) (st st' : State) (err : error) :
  InitLogger irid logLevel logFormat isDev configCb st = Returned err st' →
  err ≠ error_nil →
  zapLogger st' = None.
Proof.
  rewrite InitLogger_unfold. cbv [mbind Go_bind].
  destruct (getLogFormat irid logFormat st) as [encoding st1| |]; try discriminate.
  destruct (getLogLevel irid logLevel st1) as [level st2| |]; try discriminate.
  destruct (run_callback configCb _ st2) as [config st3| |]; try discriminate.
  intros H Herr.
  destruct (build_and_install_cases config st3)
    as [(_ & _ & Hb)|(err' & _ & Hb)]; rewrite Hb in H.
  - injection H as <- _. done.
  - by injection H as _ <-.
Qed.

(** With a nil [zapLogger] the log calls panic where they stand. *)
Lemma calls_without_logger_panic_aux (rid msg : string) (fields : FieldsMap)
    (st : State) :
  zapLogger st = None →
  LogDebug rid msg fields st = Panicked st ∧
  LogInfo rid msg fields st = Panicked st ∧
  LogWarn rid msg fields st = Panicked st ∧
  LogFatal rid msg fields st = Panicked st ∧
  (∀ err, ¬ already_logged err → LogError rid msg err fields st = Panicked st).
Proof.
  intros Hnil.
  repeat match goal with |- _ ∧ _ => split end;
    try (destruct fields; unfold LogDebug, LogInfo, LogWarn, LogFatal;
         run_go; by rewrite Hnil).
  intros err Hnot.
  destruct err as [|value|[value|]|s|m c]; [|exfalso; apply Hnot; by eexists|..];
    destruct fields; unfold LogError; run_go; by rewrite ?Hnil.
Qed.

(** ** The error-dedup contract *)

(** C1, amended.  For every request id, message and error value [e]:
    whatever the inner call of the nested
    [LogError(rid, msg, LogError(rid, msg, e, nil), nil)] returns,
    the outer call returns exactly that value and changes nothing.
    When [e] already is an [Error] the inner call writes nothing
    either.  When it is not, its [Error()] returns and a logger is
    in place, the inner call hands one Error-severity entry to the
    logger, which writes it when its threshold enables Error
    severity and its sampler admits the entry, and drops it
    otherwise. *)
Theorem LogError_nested_idempotent (rid msg : string) (e : error)
    (st : State) :
  (∀ v st1,
     LogError rid msg e None st = Returned v st1 →
     LogError rid msg v None st1 = Returned v st1) ∧
  (already_logged e → LogError rid msg e None st = Returned e st) ∧
  (∀ lg cause,
     ¬ already_logged e →
     zapLogger st = Some lg →
     cause_string e = Some cause →
     ∃ st1,
       LogError rid msg e None st =
         Returned (of_Error (NewError msg cause)) st1 ∧
       written st1 =
         written st ++
         (if writes st lg (error_entry rid msg cause None)
          then [(lg, error_entry rid msg cause None)] else []) ∧
       zapcore.EntryLevel (error_entry rid msg cause None) = zapcore.ErrorLevel).
Proof.
  split; [|split].
  - intros v st1 H.
    destruct (LogError_returns_Error _ _ _ _ _ _ _ H) as [[value ->] _].
    apply LogError_logged.
  - intros [value ->]. apply LogError_logged.
  - intros lg cause Hnot Hlg Hcause.
    rewrite (LogError_unlogged rid msg e None st lg cause Hnot Hlg Hcause).
    eexists. split; [reflexivity|]. split; [|reflexivity].
    apply handed_frame.
Qed.

(** C6, amended.  With a logger in place,
    [LogError(rid, msg, nil, nil)] returns normally, and what it
    returns is an [Error] whose [RawError()] is the empty string.
    It hands one Error-severity entry whose "error" field is the
    empty string to the logger, which writes it when its threshold
    enables Error severity and its sampler admits the entry, and
    drops it otherwise. *)
Theorem LogError_nil_safe (rid msg : string) (st : State) (lg : zap.Logger) :
  zapLogger st = Some lg →
  ∃ e st' ent,
    LogError rid msg error_nil None st = Returned (of_Error e) st' ∧
    RawError e = "" ∧
    Error_Error e = msg ∧
    written st' = written st ++ (if writes st lg ent then [(lg, ent)] else []) ∧
    zapcore.EntryLevel ent = zapcore.ErrorLevel ∧
    zapcore.Message ent = msg ∧
    lookup_field "error" (zapcore.Fields ent) = Some (zapcore.StringType "") ∧
    lookup_field "requestId" (zapcore.Fields ent) = Some (zapcore.StringType rid).
Proof.
  intros Hlg.
  assert (Hnot : ¬ already_logged error_nil) by (intros [value Hv]; discriminate).
  rewrite (LogError_unlogged rid msg error_nil None st lg "" Hnot Hlg eq_refl).
  eexists _, _, _. split; [reflexivity|].
  split; [reflexivity|]. split; [reflexivity|].
  split; [apply handed_frame|]. by repeat split.
Qed.

(** C8.  Whatever [LogError] returns has the dynamic type [Error]:
    an [err] that already is one comes back as it is; for any other
    [err] whose [Error()] returns (nil counting as the empty text),
    with a logger in place, the call returns, and the value is the
    one [NewError(message, cause)] builds, so [Error()] gives the
    message argument and [RawError()] the text of the cause. *)
Theorem LogError_returns_LoggedError (rid msg : string) (err : error)
    (fields : FieldsMap) (st : State) :
  (∀ v st', LogError rid msg err fields st = Returned v st' → already_logged v) ∧
  (∀ value, err = of_Error value →
     LogError rid msg err fields st = Returned (of_Error value) st) ∧
  (∀ lg cause,
     ¬ already_logged err →
     zapLogger st = Some lg →
     cause_string err = Some cause →
     ∃ e st',
       LogError rid msg err fields st = Returned (of_Error e) st' ∧
       e = NewError msg cause ∧
       Error_Error e = msg ∧
       RawError e = cause).
Proof.
  split; [|split].
  - intros v st' H. by apply (LogError_returns_Error _ _ _ _ _ _ _ H).
  - intros value ->. apply LogError_logged.
  - intros lg cause Hnot Hlg Hcause.
    rewrite (LogError_unlogged rid msg err fields st lg cause Hnot Hlg Hcause).
    by eexists _, _.
Qed.

(** C10, amended.  The already-logged check accepts the dynamic type
    [Error] and nothing else: [LogError] hands [err] back untouched
    exactly when [err] is an [Error] value.  A non-nil pointer to an
    [Error] and a wrapper whose cause is an [Error] are treated as
    not yet logged: with a logger in place the call returns a new
    [Error] and hands a new Error-severity entry to the logger,
    which writes it when its threshold enables Error severity and
    its sampler admits the entry, and drops it otherwise. *)
Theorem LogError_checks_exact_type (rid msg : string) (fields : FieldsMap)
    (st : State) :
  (∀ err, LogError rid msg err fields st = Returned err st ↔ already_logged err) ∧
  (∀ lg inner text,
     zapLogger st = Some lg →
     (∃ st',
        LogError rid msg (of_ErrorPtr (Some inner)) fields st =
          Returned (of_Error (NewError msg (message inner))) st' ∧
        written st' =
          written st ++
          (if writes st lg (error_entry rid msg (message inner) fields)
           then [(lg, error_entry rid msg (message inner) fields)] else [])) ∧
     (∃ st',
        LogError rid msg (of_wrapError text (of_Error inner)) fields st =
          Returned (of_Error (NewError msg text)) st' ∧
        written st' =
          written st ++
          (if writes st lg (error_entry rid msg text fields)
           then [(lg, error_entry rid msg text fields)] else []))).
Proof.
  split.
  - intros err. split.
    + intros H. destruct (decide (already_logged err)) as [Hl|Hn]; [done|].
      destruct (LogError_returns_Error _ _ _ _ _ _ _ H) as [_ Hne].
      by destruct (Hne Hn).
    + intros [value ->]. apply LogError_logged.
  - intros lg inner text Hlg. split.
    + rewrite (LogError_unlogged rid msg (of_ErrorPtr (Some inner)) fields st lg
                 (message inner)); [|by intros [? ?]|done|done].
      eexists. split; [reflexivity|]. apply handed_frame.
    + rewrite (LogError_unlogged rid msg (of_wrapError text (of_Error inner))
                 fields st lg text); [|by intros [? ?]|done|done].
      eexists. split; [reflexivity|]. apply handed_frame.
Qed.

(** ** The logging calls *)

(** C7, amended.  With a logger in place, each of [LogDebug],
    [LogInfo], [LogWarn], [LogError] and [LogFatal] hands one entry
    to the logger, which writes it when its threshold enables the
    severity and its sampler admits the entry, and drops it
    otherwise; whether it is written does not depend on the fields.
    With nil fields the entry has no "fields" key, with an empty map
    it has the key with an empty object, and the two entries
    differ. *)
Theorem fields_key_omitted_when_nil (rid msg : string) (st : State)
    (lg : zap.Logger) :
  zapLogger st = Some lg →
  (∀ fields, LogDebug rid msg fields st =
     Returned tt
       (handed st lg (plain_entry zapcore.DebugLevel rid msg fields))) ∧
  (∀ fields, LogInfo rid msg fields st =
     Returned tt
       (handed st lg (plain_entry zapcore.InfoLevel rid msg fields))) ∧
  (∀ fields, LogWarn rid msg fields st =
     Returned tt
       (handed st lg (plain_entry zapcore.WarnLevel rid msg fields))) ∧
  (∀ fields, LogFatal rid msg fields st =
     Exited 1
       (handed_fatal st lg (plain_entry zapcore.FatalLevel rid msg fields))) ∧
  (∀ fields err cause,
     ¬ already_logged err →
     cause_string err = Some cause →
     LogError rid msg err fields st =
       Returned (of_Error (NewError msg cause))
         (handed st lg (error_entry rid msg cause fields))) ∧
  (∀ lvl fields,
     written (handed st lg (plain_entry lvl rid msg fields)) =
       written st ++
       (if writes st lg (plain_entry lvl rid msg fields)
        then [(lg, plain_entry lvl rid msg fields)] else []) ∧
     written (handed_fatal st lg
                (plain_entry zapcore.FatalLevel rid msg fields)) =
       written st ++
       (if writes st lg (plain_entry zapcore.FatalLevel rid msg fields)
        then [(lg, plain_entry zapcore.FatalLevel rid msg fields)] else []) ∧
     writes st lg (plain_entry lvl rid msg fields) =
       writes st lg (plain_entry lvl rid msg None)) ∧
  (∀ cause fields,
     written (handed st lg (error_entry rid msg cause fields)) =
       written st ++
       (if writes st lg (error_entry rid msg cause fields)
        then [(lg, error_entry rid msg cause fields)] else []) ∧
     writes st lg (error_entry rid msg cause fields) =
       writes st lg (error_entry rid msg cause None)) ∧
  (∀ lvl,
     lookup_field "fields" (zapcore.Fields (plain_entry lvl rid msg None)) = None ∧
     lookup_field "fields" (zapcore.Fields (plain_entry lvl rid msg (Some ∅))) =
       Some (zapcore.ReflectType ∅) ∧
     plain_entry lvl rid msg None ≠ plain_entry lvl rid msg (Some ∅)) ∧
  (∀ cause,
     lookup_field "fields" (zapcore.Fields (error_entry rid msg cause None)) = None ∧
     lookup_field "fields" (zapcore.Fields (error_entry rid msg cause (Some ∅))) =
       Some (zapcore.ReflectType ∅) ∧
     error_entry rid msg cause None ≠ error_entry rid msg cause (Some ∅)).
Proof.
  intros Hlg.
  repeat match goal with |- _ ∧ _ => split end.
  - intros fields. by apply LogDebug_handed.
  - intros fields. by apply LogInfo_handed.
  - intros fields. by apply LogWarn_handed.
  - intros fields. by apply LogFatal_handed.
  - intros fields err cause Hnot Hcause. by apply LogError_unlogged.
  - intros lvl fields. split; [apply handed_frame|].
    split; [by apply handed_fatal_frame|reflexivity].
  - intros cause fields. split; [apply handed_frame|reflexivity].
  - intros lvl. repeat split. discriminate.
  - intros cause. repeat split. discriminate.
Qed.

(** ** Initialisation *)

(** C2, the code at a failing input.  After [init], a call of
    [InitLogger] whose callback names an encoding the backend does
    not know returns a non-nil error, and [zapLogger], which held the
    default logger before the call, is nil after it: the next log
    call dereferences nil. *)
Theorem InitLogger_failed_build_clears_logger (irid : string) :
  ∃ err st',
    InitLogger irid "info" "json" false [encoding_override "xml"] initialised =
      Returned err st' ∧
    err ≠ error_nil ∧
    zapLogger initialised = Some default_logger ∧
    zapLogger st' = None ∧
    LogInfo "req-1" "after the failed call" None st' = Panicked st' ∧
    ¬ failed_init_keeps_logger irid "info" "json" false
        [encoding_override "xml"] initialised.
Proof.
  assert (Hrun :
    InitLogger irid "info" "json" false [encoding_override "xml"] initialised =
      Returned
        (of_errorString ("no encoder registered for name " +:+ quoted "xml"))
        (uninstalled initialised))
    by reflexivity.
  eexists _, _. split; [exact Hrun|].
  split; [discriminate|]. split; [reflexivity|]. split; [reflexivity|].
  split; [reflexivity|].
  intros H. specialize (H _ _ Hrun). simpl in H.
  assert (Hkept : None = Some default_logger) by (apply H; discriminate).
  discriminate.
Qed.

(** C3, amended.  For every string [L] other than "debug", "info" and
    "error", with a logger in place: the level resolves to Info, and
    one Info-severity fallback entry is handed to the logger that is
    current at that moment, which writes it when its own threshold
    enables Info severity and its sampler admits the entry, and drops
    it otherwise.  In [InitLogger] with level [L], Info is the level
    of the configuration that reaches the callback, if there is one,
    and the build; without a callback the call succeeds and the
    logger it installs has the threshold Info. *)
Theorem invalid_level_falls_back_to_info (irid L : string) (st : State)
    (lg : zap.Logger) :
  L ≠ "debug" → L ≠ "info" → L ≠ "error" →
  zapLogger st = Some lg →
  getLogLevel irid L st =
    Returned zapcore.InfoLevel (handed st lg (level_fallback_entry irid)) ∧
  written (handed st lg (level_fallback_entry irid)) =
    written st ++
    (if writes st lg (level_fallback_entry irid)
     then [(lg, level_fallback_entry irid)] else []) ∧
  zapcore.EntryLevel (level_fallback_entry irid) = zapcore.InfoLevel ∧
  (∀ logFormat isDev configCb encoding st1,
     getLogFormat irid logFormat st = Returned encoding st1 →
     InitLogger irid L logFormat isDev configCb st =
       (config ← run_callback configCb
                  (resolved_config isDev logFormat encoding zapcore.InfoLevel);
        build_and_install config)
         (handed st1 lg (level_fallback_entry irid))) ∧
  (∀ logFormat isDev, ∃ encoding st1 lg',
     getLogFormat irid logFormat st = Returned encoding st1 ∧
     InitLogger irid L logFormat isDev [] st =
       Returned error_nil
         (installed (handed st1 lg (level_fallback_entry irid)) lg') ∧
     zapcore.LevelEnabler (zap.core lg') = zapcore.InfoLevel).
Proof.
  intros Hd Hi He Hlg.
  split; [exact (getLogLevel_invalid irid L st lg Hd Hi He Hlg)|].
  split; [apply handed_frame|]. split; [reflexivity|]. split.
  - intros logFormat isDev configCb encoding st1 Hf.
    destruct (getLogFormat_frame _ _ _ _ _ Hf) as (_ & Hz & _).
    rewrite InitLogger_unfold. cbv [mbind Go_bind]. rewrite Hf.
    rewrite (getLogLevel_invalid irid L st1 lg Hd Hi He) by congruence.
    reflexivity.
  - intros logFormat isDev.
    destruct (InitLogger_no_callback irid L logFormat isDev st lg Hlg)
      as (encoding & level & st1 & st2 & lg' & Hf & Hlg1 & Hl & Hinit & Hlvl & _).
    rewrite (getLogLevel_invalid irid L st1 lg Hd Hi He Hlg1) in Hl.
    injection Hl as <- <-.
    by exists encoding, st1, lg'.
Qed.

(** C4, amended.  "json" resolves to json and "text" to console, and
    neither writes anything.  For every other string [F], with a
    logger in place: the encoding resolves to json, and one
    Info-severity fallback entry is handed to the logger that is
    current at that moment, which writes it when its own threshold
    enables Info severity and its sampler admits the entry, and drops
    it otherwise.  In [InitLogger] with format [F], json is the
    encoding of the configuration that reaches the callback, if
    there is one, and the build; without a callback the call
    succeeds and the logger it installs has the resolved encoding. *)
Theorem format_resolves_with_fallback (irid : string) (st : State) :
  getLogFormat irid "json" st = Returned "json" st ∧
  getLogFormat irid "text" st = Returned "console" st ∧
  (∀ F lg,
     F ≠ "json" → F ≠ "text" →
     zapLogger st = Some lg →
     getLogFormat irid F st =
       Returned "json" (handed st lg (format_fallback_entry irid)) ∧
     written (handed st lg (format_fallback_entry irid)) =
       written st ++
       (if writes st lg (format_fallback_entry irid)
        then [(lg, format_fallback_entry irid)] else []) ∧
     zapcore.EntryLevel (format_fallback_entry irid) = zapcore.InfoLevel ∧
     ∀ logLevel isDev configCb,
       InitLogger irid logLevel F isDev configCb st =
         (level ← getLogLevel irid logLevel;
          config ← run_callback configCb
                     (resolved_config isDev F "json" level);
          build_and_install config)
           (handed st lg (format_fallback_entry irid))) ∧
  (∀ F lg logLevel isDev,
     zapLogger st = Some lg →
     ∃ encoding st1 level st2 lg',
       getLogFormat irid F st = Returned encoding st1 ∧
       getLogLevel irid logLevel st1 = Returned level st2 ∧
       InitLogger irid logLevel F isDev [] st =
         Returned error_nil (installed st2 lg') ∧
       zapcore.Encoder (zap.core lg') = encoding).
Proof.
  split; [reflexivity|]. split; [reflexivity|]. split.
  - intros F lg Hj Ht Hlg.
    split; [exact (getLogFormat_invalid irid F st lg Hj Ht Hlg)|].
    split; [apply handed_frame|]. split; [reflexivity|].
    intros logLevel isDev configCb.
    rewrite InitLogger_unfold. cbv [mbind Go_bind].
    by rewrite (getLogFormat_invalid irid F st lg Hj Ht Hlg).
  - intros F lg logLevel isDev Hlg.
    destruct (InitLogger_no_callback irid logLevel F isDev st lg Hlg)
      as (encoding & level & st1 & st2 & lg' & Hf & _ & Hl & Hinit & _ & Hen).
    by exists encoding, st1, level, st2, lg'.
Qed.

(** C5, amended.  After a successful [InitLogger] with level "error"
    in which no callback ran, or the one that ran left the level as
    resolved, [LogDebugEnabled()] and [LogInfoEnabled()] return false
    and [LogErrorEnabled()] returns true. *)
Theorem error_level_enabled_checks (irid logFormat : string) (isDev : bool)
    (configCb : list Callback) (st st' : State) :
  level_kept_in_run irid "error" logFormat isDev configCb st →
  InitLogger irid "error" logFormat isDev configCb st = Returned error_nil st' →
  LogDebugEnabled st' = Returned false st' ∧
  LogInfoEnabled st' = Returned false st' ∧
  LogErrorEnabled st' = Returned true st'.
Proof.
  intros Hkeep. rewrite InitLogger_unfold. cbv [mbind Go_bind].
  destruct (getLogFormat irid logFormat st) as [encoding st1| |] eqn:Hf;
    try discriminate.
  assert (Hl : getLogLevel irid "error" st1 = Returned zapcore.ErrorLevel st1)
    by reflexivity.
  rewrite Hl.
  destruct (run_callback configCb
              (resolved_config isDev logFormat encoding zapcore.ErrorLevel) st1)
    as [config st2| |] eqn:Hcb; try discriminate.
  assert (Hlevel : zap.Level config = zapcore.ErrorLevel).
  { destruct configCb as [|cb rest].
    - by injection Hcb as <- <-.
    - exact (Hkeep _ _ _ _ _ _ Hf Hl Hcb). }
  intros H.
  destruct (build_and_install_cases config st2)
    as [(_ & _ & Hb)|(err & Hne & Hb)]; rewrite Hb in H.
  - injection H as <-.
    unfold LogDebugEnabled, LogInfoEnabled, LogErrorEnabled. run_go. simpl.
    unfold zapLog.Enabled. simpl. rewrite Hlevel. by repeat split.
  - injection H as ? _. done.
Qed.

(** C9.  Of the callbacks passed to [InitLogger] only the first
    runs, on the configuration as resolved: the call with
    [cb :: rest] is the call with [cb] alone, whatever the callbacks
    do; with no callback the resolved configuration goes to the
    build as it is. *)
Theorem InitLogger_first_callback_only (irid logLevel logFormat : string)
    (isDev : bool) (st : State) :
  (∀ cb rest,
     InitLogger irid logLevel logFormat isDev (cb :: rest) st =
     InitLogger irid logLevel logFormat isDev [cb] st) ∧
  (∀ cb rest,
     InitLogger irid logLevel logFormat isDev (cb :: rest) st =
       (encoding ← getLogFormat irid logFormat;
        level ← getLogLevel irid logLevel;
        config ← cb (resolved_config isDev logFormat encoding level);
        build_and_install config) st) ∧
  InitLogger irid logLevel logFormat isDev [] st =
    (encoding ← getLogFormat irid logFormat;
     level ← getLogLevel irid logLevel;
     build_and_install (resolved_config isDev logFormat encoding level)) st.
Proof.
  split; [reflexivity|]. split; [reflexivity|].
  rewrite InitLogger_unfold. cbv [mbind Go_bind mret Go_ret run_callback].
  destruct (getLogFormat irid logFormat st) as [encoding st1| |]; [|done..].
  by destruct (getLogLevel irid logLevel st1).
Qed.

(** ** Further properties of initialisation *)

(** X1.  With a level among "debug", "info", "error" and a format
    among "json", "text", [InitLogger] without a callback succeeds
    from every state, a nil [zapLogger] included: it writes nothing,
    and the logger it installs has the threshold and encoding named
    by the arguments, whatever the template's defaults were. *)
Theorem InitLogger_valid_arguments (irid logLevel logFormat : string)
    (isDev : bool) (st : State) :
  logLevel = "debug" ∨ logLevel = "info" ∨ logLevel = "error" →
  logFormat = "json" ∨ logFormat = "text" →
  ∃ lg',
    InitLogger irid logLevel logFormat isDev [] st =
      Returned error_nil (installed st lg') ∧
    zapcore.LevelEnabler (zap.core lg') =
      (if bool_decide (logLevel = "debug") then zapcore.DebugLevel
       else if bool_decide (logLevel = "info") then zapcore.InfoLevel
       else zapcore.ErrorLevel) ∧
    zapcore.Encoder (zap.core lg') =
      (if bool_decide (logFormat = "json") then "json" else "console") ∧
    zapcore.Sinks (zap.core lg') = ["stderr"] ∧
    zap.development lg' = isDev ∧
    zap.callerSkip lg' = 1.
Proof.
  intros [-> | [-> | ->]] [-> | ->]; destruct isDev;
    eexists; (split; [vm_compute; reflexivity|]); by repeat split.
Qed.

(** X2.  With a nil [zapLogger], an unknown format or an unknown
    level makes [InitLogger] panic in the fallback's log call: the
    state is untouched and no callback runs. *)
Theorem InitLogger_fallback_needs_logger (irid logLevel logFormat : string)
    (isDev : bool) (configCb : list Callback) (st : State) :
  zapLogger st = None →
  (logFormat ≠ "json" ∧ logFormat ≠ "text") ∨
  (logLevel ≠ "debug" ∧ logLevel ≠ "info" ∧ logLevel ≠ "error") →
  InitLogger irid logLevel logFormat isDev configCb st = Panicked st.
Proof.
  intros Hnil Hbad. rewrite InitLogger_unfold. cbv [mbind Go_bind].
  assert (Hinfo : ∀ msg, LogInfo irid msg None st = Panicked st).
  { intros msg. unfold LogInfo. run_go. by rewrite Hnil. }
  destruct (decide (logFormat = "json")) as [->|Hj].
  { destruct Hbad as [[? _]|(Hd & Hi & He)]; [done|].
    assert (Hf : getLogFormat irid "json" st = Returned "json" st) by reflexivity.
    rewrite Hf. unfold getLogLevel, LogLevelDebug, LogLevelInfo, LogLevelError.
    rewrite !bool_decide_eq_false_2 by done.
    cbv [mbind Go_bind]. by rewrite Hinfo. }
  destruct (decide (logFormat = "text")) as [->|Ht].
  { destruct Hbad as [[_ ?]|(Hd & Hi & He)]; [done|].
    assert (Hf : getLogFormat irid "text" st = Returned "console" st) by reflexivity.
    rewrite Hf. unfold getLogLevel, LogLevelDebug, LogLevelInfo, LogLevelError.
    rewrite !bool_decide_eq_false_2 by done.
    cbv [mbind Go_bind]. by rewrite Hinfo. }
  unfold getLogFormat, LogFormatJSON, LogFormatText.
  rewrite !bool_decide_eq_false_2 by done.
  cbv [mbind Go_bind]. by rewrite Hinfo.
Qed.

(** X3.  Whenever [InitLogger] returns a nil error, whatever the
    callbacks did, the same new logger is in [zapLogger] and in the
    redirected standard log; its caller skip is 1 and its encoding
    is one the backend has an encoder for. *)
Theorem InitLogger_success_installs_one_logger (irid logLevel logFormat : string)
    (isDev : bool) (configCb : list Callback) (st st' : State) :
  InitLogger irid logLevel logFormat isDev configCb st = Returned error_nil st' →
  ∃ lg',
    zapLogger st' = Some lg' ∧
    stdLog st' = Some lg' ∧
    zap.callerSkip lg' = 1 ∧
    zap.encoderRegistered (zapcore.Encoder (zap.core lg')) = true.
Proof.
  rewrite InitLogger_unfold. cbv [mbind Go_bind].
  destruct (getLogFormat irid logFormat st) as [encoding st1| |]; try discriminate.
  destruct (getLogLevel irid logLevel st1) as [level st2| |]; try discriminate.
  destruct (run_callback configCb _ st2) as [config st3| |]; try discriminate.
  destruct (build_and_install_cases config st3)
    as [(Hreg & _ & Hb)|(err & Hne & Hb)]; rewrite Hb; intros H.
  - injection H as <-. eexists. by repeat split.
  - injection H as ? _. done.
Qed.

(** X12.  When [InitLogger] returns an error, be it for an unknown
    encoding or for an output path that does not open, and the
    callback that ran left the process state alone, the call has
    still changed the process: [zapLogger] is nil, while the
    redirected standard log keeps the logger it had, and the
    fallback entries written on the way stay written. *)
Theorem InitLogger_failure_is_partial (irid logLevel logFormat : string)
    (isDev : bool) (configCb : list Callback) (st st' : State) (err : error) :
  pure_in_run irid logLevel logFormat isDev configCb st →
  InitLogger irid logLevel logFormat isDev configCb st = Returned err st' →
  err ≠ error_nil →
  zapLogger st' = None ∧
  stdLog st' = stdLog st ∧
  ∃ ws, written st' = written st ++ ws ∧ (length ws ≤ 2)%nat.
Proof.
  intros Hpure. rewrite InitLogger_unfold. cbv [mbind Go_bind].
  destruct (getLogFormat irid logFormat st) as [encoding st1| |] eqn:Hf;
    try discriminate.
  destruct (getLogLevel irid logLevel st1) as [level st2| |] eqn:Hl;
    try discriminate.
  destruct (run_callback configCb
              (resolved_config isDev logFormat encoding level) st2)
    as [config st3| |] eqn:Hcb; try discriminate.
  assert (Hst3 : st3 = st2).
  { destruct configCb as [|cb rest].
    - by injection Hcb as _ <-.
    - exact (Hpure _ _ _ _ _ _ Hf Hl Hcb). }
  subst st3.
  destruct (getLogFormat_frame _ _ _ _ _ Hf) as (_ & _ & Hs1 & _ & ws1 & Hw1 & Hn1).
  destruct (getLogLevel_frame _ _ _ _ _ Hl) as (_ & _ & Hs2 & _ & ws2 & Hw2 & Hn2).
  intros H Herr.
  destruct (build_and_install_cases config st2)
    as [(_ & _ & Hb)|(err' & _ & Hb)]; rewrite Hb in H.
  - injection H as <- _. done.
  - injection H as _ <-. simpl.
    split; [done|]. split; [congruence|].
    exists (ws1 ++ ws2). rewrite Hw2, Hw1, <- app_assoc, length_app.
    split; [done|lia].
Qed.

(** X13.  No level string resolves to a threshold above Error: after
    every successful [InitLogger] without a callback, whatever the
    strings were, [LogErrorEnabled()] and [LogFatalEnabled()] return
    true, and [LogWarnEnabled()] returns what [LogInfoEnabled()]
    returns. *)
Theorem callback_free_init_enables_error (irid logLevel logFormat : string)
    (isDev : bool) (st st' : State) :
  InitLogger irid logLevel logFormat isDev [] st = Returned error_nil st' →
  LogErrorEnabled st' = Returned true st' ∧
  LogFatalEnabled st' = Returned true st' ∧
  ∃ b, LogInfoEnabled st' = Returned b st' ∧ LogWarnEnabled st' = Returned b st'.
Proof.
  rewrite InitLogger_unfold. cbv [mbind Go_bind].
  destruct (getLogFormat irid logFormat st) as [encoding st1| |]; try discriminate.
  destruct (getLogLevel irid logLevel st1) as [level st2| |] eqn:Hl;
    try discriminate.
  destruct (getLogLevel_frame _ _ _ _ _ Hl) as (Hrange & _).
  cbv [run_callback mret Go_ret].
  destruct (build_and_install_cases
              (resolved_config isDev logFormat encoding level) st2)
    as [(_ & _ & Hb)|(err & Hne & Hb)]; rewrite Hb; intros H.
  - injection H as <-.
    unfold LogErrorEnabled, LogFatalEnabled, LogInfoEnabled, LogWarnEnabled.
    run_go. simpl.
    destruct Hrange as [-> | [-> | ->]];
      (split; [reflexivity|split; [reflexivity|by eexists]]).
  - injection H as ? _. done.
Qed.

(** X14.  Between two callback-free calls with valid arguments the
    later one decides: the state after both is the state the second
    call alone would have produced. *)
Theorem InitLogger_last_call_decides (irid l1 f1 l2 f2 : string)
    (d1 d2 : bool) (st : State) :
  l1 = "debug" ∨ l1 = "info" ∨ l1 = "error" →
  f1 = "json" ∨ f1 = "text" →
  l2 = "debug" ∨ l2 = "info" ∨ l2 = "error" →
  f2 = "json" ∨ f2 = "text" →
  ∃ st1,
    InitLogger irid l1 f1 d1 [] st = Returned error_nil st1 ∧
    InitLogger irid l2 f2 d2 [] st1 = InitLogger irid l2 f2 d2 [] st.
Proof.
  intros Hl1 Hf1 Hl2 Hf2.
  destruct (InitLogger_valid_any_state irid l1 f1 d1 Hl1 Hf1) as (lg1 & H1).
  destruct (InitLogger_valid_any_state irid l2 f2 d2 Hl2 Hf2) as (lg2 & H2).
  eexists. split; [apply H1|]. by rewrite !H2.
Qed.

(** X15.  When both the format and the level are unknown, a
    callback-free [InitLogger] hands two fallback entries, the
    format's first and the level's second, to the logger that was
    current before the call; each is written when that logger
    enables Info severity and its sampler admits the entry.  Then a
    json logger at Info is installed. *)
Theorem InitLogger_both_fallbacks (irid logLevel logFormat : string)
    (isDev : bool) (st : State) (lg : zap.Logger) :
  zapLogger st = Some lg →
  logFormat ≠ "json" → logFormat ≠ "text" →
  logLevel ≠ "debug" → logLevel ≠ "info" → logLevel ≠ "error" →
  ∃ lg',
    InitLogger irid logLevel logFormat isDev [] st =
      Returned error_nil
        (installed
           (handed (handed st lg (format_fallback_entry irid)) lg
              (level_fallback_entry irid)) lg') ∧
    written
      (handed (handed st lg (format_fallback_entry irid)) lg
         (level_fallback_entry irid)) =
      written st ++
      (if writes st lg (format_fallback_entry irid)
       then [(lg, format_fallback_entry irid)] else []) ++
      (if writes (handed st lg (format_fallback_entry irid)) lg
            (level_fallback_entry irid)
       then [(lg, level_fallback_entry irid)] else []) ∧
    zapcore.LevelEnabler (zap.core lg') = zapcore.InfoLevel ∧
    zapcore.Encoder (zap.core lg') = "json" ∧
    zap.development lg' = isDev.
Proof.
  intros Hlg Hj Ht Hd Hi He.
  exists (logger_of (resolved_config isDev logFormat "json" zapcore.InfoLevel)).
  split.
  - rewrite InitLogger_unfold. cbv [mbind Go_bind].
    rewrite (getLogFormat_invalid irid logFormat st lg Hj Ht Hlg).
    rewrite (getLogLevel_invalid irid logLevel _ lg Hd Hi He)
      by (by rewrite (proj1 (handed_frame _ _ _))).
    cbv [run_callback mret Go_ret].
    apply build_and_install_resolved. by left.
  - split.
    + rewrite (proj2 (proj2 (proj2
                 (handed_frame (handed st lg (format_fallback_entry irid)) lg
                    (level_fallback_entry irid))))).
      rewrite (proj2 (proj2 (proj2
                 (handed_frame st lg (format_fallback_entry irid))))).
      by rewrite <- app_assoc.
    + unfold resolved_config. destruct isDev; simpl;
        try destruct (bool_decide _); by repeat split.
Qed.

(** X16.  What the override callback receives: the template chosen
    by [isDev] with its level and encoding replaced by the resolved
    ones, so the development template's Debug default never reaches
    the callback; the level encoder is the coloured one exactly in
    development mode with format "text"; output goes to stderr. *)
Theorem callback_receives_resolved_config (irid logLevel logFormat : string)
    (isDev : bool) (cb : Callback) (rest : list Callback) (st : State) :
  InitLogger irid logLevel logFormat isDev (cb :: rest) st =
    (encoding ← getLogFormat irid logFormat;
     level ← getLogLevel irid logLevel;
     config ← cb {| zap.Level := level;
                    zap.Development := isDev;
                    zap.Sampling := if isDev then None else Some (100, 100);
                    zap.Encoding := encoding;
                    zap.EncodeLevel :=
                      if isDev then
                        if bool_decide (logFormat = "text")
                        then zapcore.CapitalColorLevelEncoder
                        else zapcore.CapitalLevelEncoder
                      else zapcore.LowercaseLevelEncoder;
                    zap.OutputPaths := ["stderr"];
                    zap.ErrorOutputPaths := ["stderr"] |};
     build_and_install config) st.
Proof.
  rewrite InitLogger_unfold. cbv [mbind Go_bind run_callback].
  destruct (getLogFormat irid logFormat st) as [encoding st1| |]; [|done..].
  destruct (getLogLevel irid logLevel st1) as [level st2| |]; [|done..].
  unfold resolved_config, LogFormatText.
  destruct isDev; [case_bool_decide|]; reflexivity.
Qed.

(** X17.  The override decides what is installed: when [InitLogger]
    with a callback returns a nil error, the new logger is built from
    the configuration the callback returned (its level, encoding,
    output paths and development flag), not from the arguments, and
    the entries written are those of the state the callback left. *)
Theorem callback_decides_installed_logger (irid logLevel logFormat : string)
    (isDev : bool) (cb : Callback) (rest : list Callback) (st st' : State) :
  InitLogger irid logLevel logFormat isDev (cb :: rest) st =
    Returned error_nil st' →
  ∃ encoding st1 level st2 config st3,
    getLogFormat irid logFormat st = Returned encoding st1 ∧
    getLogLevel irid logLevel st1 = Returned level st2 ∧
    cb (resolved_config isDev logFormat encoding level) st2 =
      Returned config st3 ∧
    zap.encoderRegistered (zap.Encoding config) = true ∧
    st' = installed st3 (logger_of config) ∧
    written st' = written st3.
Proof.
  rewrite InitLogger_unfold. cbv [mbind Go_bind run_callback].
  destruct (getLogFormat irid logFormat st) as [encoding st1| |] eqn:Hf;
    try discriminate.
  destruct (getLogLevel irid logLevel st1) as [level st2| |] eqn:Hl;
    try discriminate.
  destruct (cb (resolved_config isDev logFormat encoding level) st2)
    as [config st3| |] eqn:Hcb; try discriminate.
  destruct (build_and_install_cases config st3)
    as [(Hreg & _ & Hb)|(err & Hne & Hb)]; rewrite Hb; intros H.
  - injection H as <-. exists encoding, st1, level, st2, config, st3.
    by repeat split.
  - injection H as ? _. done.
Qed.

(** X18.  A logger that a callback-free [InitLogger] has just
    installed drops nothing it enables on the first call: in
    development mode it has no sampler at all, in production mode
    its sampler (100 first, then every 100th) has counted nothing
    yet, so the first entry of any level and message is written
    exactly when the threshold enables the level. *)
Theorem fresh_logger_admits_first_entry (irid logLevel logFormat : string)
    (isDev : bool) (st st' : State) :
  InitLogger irid logLevel logFormat isDev [] st = Returned error_nil st' →
  ∃ lg',
    zapLogger st' = Some lg' ∧
    zap.sampler lg' = (if isDev then None else Some (100, 100)) ∧
    ∀ ent,
      writes st' lg' ent =
        zapLog.Enabled (zap.core lg') (zapcore.EntryLevel ent).
Proof.
  rewrite InitLogger_unfold. cbv [mbind Go_bind].
  destruct (getLogFormat irid logFormat st) as [encoding st1| |]; try discriminate.
  destruct (getLogLevel irid logLevel st1) as [level st2| |]; try discriminate.
  cbv [run_callback mret Go_ret].
  destruct (build_and_install_cases
              (resolved_config isDev logFormat encoding level) st2)
    as [(_ & _ & Hb)|(err & Hne & Hb)]; rewrite Hb; intros H.
  - injection H as <-. eexists. split; [reflexivity|].
    assert (Hs : zap.sampler
                   (logger_of (resolved_config isDev logFormat encoding level)) =
                 (if isDev then None else Some (100, 100))).
    { unfold resolved_config. destruct isDev; simpl;
        try destruct (bool_decide _); reflexivity. }
    split; [exact Hs|].
    intros ent. unfold writes.
    destruct (zapLog.Enabled _ _); [|reflexivity]. simpl.
    destruct isDev.
    + by apply admits_without_sampler.
    + by apply (admits_first_entry _ _ _ _ 100 100).
  - injection H as ? _. done.
Qed.

(** ** Further properties of the logging calls *)

(** X4.  With a nil [zapLogger] every enabled check and every log
    call panics and leaves the state as it was; the one call that
    still returns is [LogError] on a value that already is an
    [Error]. *)
Theorem calls_without_logger_panic (rid msg : string) (fields : FieldsMap)
    (st : State) :
  zapLogger st = None →
  LogDebugEnabled st = Panicked st ∧
  LogInfoEnabled st = Panicked st ∧
  LogWarnEnabled st = Panicked st ∧
  LogErrorEnabled st = Panicked st ∧
  LogFatalEnabled st = Panicked st ∧
  LogDebug rid msg fields st = Panicked st ∧
  LogInfo rid msg fields st = Panicked st ∧
  LogWarn rid msg fields st = Panicked st ∧
  LogFatal rid msg fields st = Panicked st ∧
  (∀ err, ¬ already_logged err → LogError rid msg err fields st = Panicked st) ∧
  (∀ value,
     LogError rid msg (of_Error value) fields st = Returned (of_Error value) st).
Proof.
  intros Hnil.
  repeat match goal with |- _ ∧ _ => split end;
    try (unfold LogDebugEnabled, LogInfoEnabled, LogWarnEnabled,
           LogErrorEnabled, LogFatalEnabled; run_go; by rewrite Hnil);
    try (destruct fields; unfold LogDebug, LogInfo, LogWarn, LogFatal;
         run_go; by rewrite Hnil).
  - intros err Hnot.
    destruct err as [|value|[value|]|s|m c]; [|exfalso; apply Hnot; by eexists|..];
      destruct fields; unfold LogError; run_go; by rewrite ?Hnil.
  - intros value. apply LogError_logged.
Qed.

(** X5.  With a logger in place the five enabled checks return,
    change nothing, and are monotone in the severity: what enables
    Debug enables Info, what enables Info enables Warn, then Error,
    then Fatal. *)
Theorem enabled_checks_monotone (st : State) (lg : zap.Logger) :
  zapLogger st = Some lg →
  ∃ d i w e f,
    LogDebugEnabled st = Returned d st ∧
    LogInfoEnabled st = Returned i st ∧
    LogWarnEnabled st = Returned w st ∧
    LogErrorEnabled st = Returned e st ∧
    LogFatalEnabled st = Returned f st ∧
    (d = true → i = true) ∧
    (i = true → w = true) ∧
    (w = true → e = true) ∧
    (e = true → f = true).
Proof.
  intros Hlg.
  unfold LogDebugEnabled, LogInfoEnabled, LogWarnEnabled, LogErrorEnabled,
    LogFatalEnabled. run_go. rewrite Hlg. simpl.
  eexists _, _, _, _, _. do 5 (split; [reflexivity|]).
  unfold zapLog.Enabled, zapcore.Enabled, zapcore.DebugLevel, zapcore.InfoLevel,
    zapcore.WarnLevel, zapcore.ErrorLevel, zapcore.FatalLevel.
  repeat split; intros H; apply Z.leb_le in H; apply Z.leb_le; lia.
Qed.

(** X6.  With a logger in place, an enabled check that returns false
    means the log call of that severity changes nothing; one that
    returns true means the call stamps its entry, hands it to the
    sampler, and writes it exactly when the sampler admits it.
    [LogError] returns its new [Error] in every case, and [LogFatal]
    leaves with exit code 1 in every case. *)
Theorem enabled_check_predicts_write (rid msg : string) (fields : FieldsMap)
    (st : State) (lg : zap.Logger) :
  zapLogger st = Some lg →
  (∀ b, LogDebugEnabled st = Returned b st →
     ∃ st', LogDebug rid msg fields st = Returned tt st' ∧
       (b = false → st' = st) ∧
       written st' =
         written st ++
         (if b && admits st lg zapcore.DebugLevel msg
          then [(lg, plain_entry zapcore.DebugLevel rid msg fields)] else [])) ∧
  (∀ b, LogInfoEnabled st = Returned b st →
     ∃ st', LogInfo rid msg fields st = Returned tt st' ∧
       (b = false → st' = st) ∧
       written st' =
         written st ++
         (if b && admits st lg zapcore.InfoLevel msg
          then [(lg, plain_entry zapcore.InfoLevel rid msg fields)] else [])) ∧
  (∀ b, LogWarnEnabled st = Returned b st →
     ∃ st', LogWarn rid msg fields st = Returned tt st' ∧
       (b = false → st' = st) ∧
       written st' =
         written st ++
         (if b && admits st lg zapcore.WarnLevel msg
          then [(lg, plain_entry zapcore.WarnLevel rid msg fields)] else [])) ∧
  (∀ b err cause,
     LogErrorEnabled st = Returned b st →
     ¬ already_logged err →
     cause_string err = Some cause →
     ∃ st', LogError rid msg err fields st =
              Returned (of_Error (NewError msg cause)) st' ∧
       (b = false → st' = st) ∧
       written st' =
         written st ++
         (if b && admits st lg zapcore.ErrorLevel msg
          then [(lg, error_entry rid msg cause fields)] else [])) ∧
  (∀ b, LogFatalEnabled st = Returned b st →
     ∃ st', LogFatal rid msg fields st = Exited 1 st' ∧
       written st' =
         written st ++
         (if b && admits st lg zapcore.FatalLevel msg
          then [(lg, plain_entry zapcore.FatalLevel rid msg fields)] else [])).
Proof.
  intros Hlg.
  assert (Hchk : ∀ lvl b,
    (zl ← get_zapLogger; c ← zapLog.Core zl; mret (zapLog.Enabled c lvl)) st =
      Returned b st →
    zapLog.Enabled (zap.core lg) lvl = b).
  { intros lvl b. run_go. rewrite Hlg. simpl. intros H. by injection H. }
  assert (Hh : ∀ ent b,
    zapLog.Enabled (zap.core lg) (zapcore.EntryLevel ent) = b →
    (b = false → handed st lg ent = st) ∧
    written (handed st lg ent) =
      written st ++
      (if b && admits st lg (zapcore.EntryLevel ent) (zapcore.Message ent)
       then [(lg, ent)] else [])).
  { intros ent b Hb. split.
    - intros ->. unfold handed. by rewrite Hb.
    - rewrite (proj2 (proj2 (proj2 (handed_frame st lg ent)))).
      unfold writes. by rewrite Hb. }
  split; [|split; [|split; [|split]]].
  - intros b Hb. apply Hchk in Hb. rewrite (LogDebug_handed _ _ _ _ lg Hlg).
    eexists. split; [reflexivity|]. by apply Hh.
  - intros b Hb. apply Hchk in Hb. rewrite (LogInfo_handed _ _ _ _ lg Hlg).
    eexists. split; [reflexivity|]. by apply Hh.
  - intros b Hb. apply Hchk in Hb. rewrite (LogWarn_handed _ _ _ _ lg Hlg).
    eexists. split; [reflexivity|]. by apply Hh.
  - intros b err cause Hb Hnot Hcause. apply Hchk in Hb.
    rewrite (LogError_unlogged rid msg err fields st lg cause Hnot Hlg Hcause).
    eexists. split; [reflexivity|]. by apply Hh.
  - intros b Hb. apply Hchk in Hb. rewrite (LogFatal_handed _ _ _ _ lg Hlg).
    eexists. split; [reflexivity|].
    rewrite (proj2 (proj2 (handed_fatal_frame st lg
                             (plain_entry zapcore.FatalLevel rid msg fields)
                             eq_refl))).
    unfold writes. simpl. by rewrite Hb.
Qed.

(** X7.  [LogFatal] never returns to its caller.  With a logger in
    place it leaves with exit code 1, having written its entry when
    the threshold enables Fatal severity and the sampler admits the
    entry, and nothing otherwise; with a nil logger it panics. *)
Theorem LogFatal_never_returns (rid msg : string) (fields : FieldsMap)
    (st : State) :
  (∀ v st', LogFatal rid msg fields st ≠ Returned v st') ∧
  (∀ lg, zapLogger st = Some lg →
     ∃ st',
       LogFatal rid msg fields st = Exited 1 st' ∧
       written st' =
         written st ++
         (if writes st lg (plain_entry zapcore.FatalLevel rid msg fields)
          then [(lg, plain_entry zapcore.FatalLevel rid msg fields)]
          else [])) ∧
  (zapLogger st = None → LogFatal rid msg fields st = Panicked st).
Proof.
  split; [|split].
  - intros v st'. destruct (zapLogger st) as [lg|] eqn:Hlg.
    + by rewrite (LogFatal_handed _ _ _ _ lg Hlg).
    + destruct fields; unfold LogFatal; run_go; by rewrite Hlg.
  - intros lg Hlg. rewrite (LogFatal_handed _ _ _ _ lg Hlg).
    eexists. split; [reflexivity|]. by apply handed_fatal_frame.
  - intros Hnil. destruct fields; unfold LogFatal; run_go; by rewrite Hnil.
Qed.

(** X8.  No log call and no enabled check touches [zapLogger] or the
    redirected standard log, and none removes or reorders what was
    written: each call, however it ends, adds at most one entry
    after the existing ones. *)
Theorem log_calls_only_append (rid msg : string) (err : error)
    (fields : FieldsMap) (st : State) :
  appends_at_most_one st (LogDebug rid msg fields st) ∧
  appends_at_most_one st (LogInfo rid msg fields st) ∧
  appends_at_most_one st (LogWarn rid msg fields st) ∧
  appends_at_most_one st (LogError rid msg err fields st) ∧
  appends_at_most_one st (LogFatal rid msg fields st) ∧
  appends_at_most_one st (LogDebugEnabled st) ∧
  appends_at_most_one st (LogInfoEnabled st) ∧
  appends_at_most_one st (LogWarnEnabled st) ∧
  appends_at_most_one st (LogErrorEnabled st) ∧
  appends_at_most_one st (LogFatalEnabled st).
Proof.
  assert (Hsame : ∀ A (o : outcome A), state_after o = st →
            appends_at_most_one st o).
  { intros A o Ho. unfold appends_at_most_one. rewrite Ho.
    split; [done|]. split; [done|]. exists []. rewrite app_nil_r.
    split; [done|simpl; lia]. }
  assert (Hhanded : ∀ A (o : outcome A) lg ent,
            state_after o = handed st lg ent → appends_at_most_one st o).
  { intros A o lg ent Ho. unfold appends_at_most_one. rewrite Ho.
    destruct (handed_frame st lg ent) as (Hz & Hs & _ & Hw).
    split; [done|]. split; [done|]. eexists. split; [exact Hw|].
    destruct (writes _ _ _); simpl; lia. }
  assert (Hchk : ∀ lvl,
    appends_at_most_one st
      ((zl ← get_zapLogger; c ← zapLog.Core zl;
        mret (zapLog.Enabled c lvl)) st)).
  { intros lvl. apply Hsame. run_go. by destruct (zapLogger st). }
  destruct (zapLogger st) as [lg|] eqn:Hlg.
  - repeat match goal with |- _ ∧ _ => split end; try apply Hchk.
    + rewrite (LogDebug_handed _ _ _ _ lg Hlg). by eapply Hhanded.
    + rewrite (LogInfo_handed _ _ _ _ lg Hlg). by eapply Hhanded.
    + rewrite (LogWarn_handed _ _ _ _ lg Hlg). by eapply Hhanded.
    + destruct (decide (already_logged err)) as [[value ->]|Hnot];
        [by apply Hsame|].
      destruct (cause_string err) as [cause|] eqn:Hc.
      * rewrite (LogError_unlogged _ _ _ _ _ _ _ Hnot Hlg Hc).
        by eapply Hhanded.
      * destruct err as [| |[value|]| |]; try discriminate.
        apply Hsame. by destruct fields.
    + rewrite (LogFatal_handed _ _ _ _ lg Hlg).
      unfold appends_at_most_one. simpl.
      destruct (handed_fatal_frame st lg
                  (plain_entry zapcore.FatalLevel rid msg fields) eq_refl)
        as (Hz & Hs & Hw).
      split; [exact Hz|]. split; [exact Hs|]. eexists. split; [exact Hw|].
      destruct (writes _ _ _); simpl; lia.
  - destruct (calls_without_logger_panic_aux rid msg fields st Hlg)
      as (Hd & Hi & Hw & Hf & He).
    repeat match goal with |- _ ∧ _ => split end; try apply Hchk;
      try (apply Hsame; by rewrite ?Hd, ?Hi, ?Hw, ?Hf).
    destruct (decide (already_logged err)) as [[value ->]|Hnot];
      [by apply Hsame|].
    apply Hsame. by rewrite (He err Hnot).
Qed.

(** X9.  A value [LogError] has returned is never logged again:
    any later [LogError] on it, with any request id, message and
    fields and in any state, returns it as it is and leaves the
    state as it was.  The message of the later call is discarded. *)
Theorem LogError_result_is_final (rid msg : string) (err : error)
    (fields : FieldsMap) (st st' : State) (v : error) :
  LogError rid msg err fields st = Returned v st' →
  ∀ rid' msg' fields' st'',
    LogError rid' msg' v fields' st'' = Returned v st''.
Proof.
  intros H rid' msg' fields' st''.
  destruct (LogError_returns_Error _ _ _ _ _ _ _ H) as [[value ->] _].
  apply LogError_logged.
Qed.

(** X10.  A nil [*Error] stored in a non-nil [error] is neither nil
    nor an [Error] for [LogError]: the call reaches [err.Error()],
    panics there, and has written nothing. *)
Theorem LogError_nil_pointer_panics (rid msg : string) (fields : FieldsMap)
    (st : State) :
  LogError rid msg (of_ErrorPtr None) fields st = Panicked st.
Proof. by destruct fields. Qed.

(** X11.  With a logger in place that writes the entry (its
    threshold enables the severity and its sampler admits the
    entry), the entry written by a log call with a present fields
    map carries the call's arguments: the severity of the call, the
    message, the request id under "requestId", the map under
    "fields", and for [LogError] the cause's text under "error". *)
Theorem entries_carry_arguments (rid msg : string) (m : gmap string Value)
    (st : State) (lg : zap.Logger) :
  zapLogger st = Some lg →
  (∀ (call : string → string → FieldsMap → Go unit) lvl,
     (call = LogDebug ∧ lvl = zapcore.DebugLevel) ∨
     (call = LogInfo ∧ lvl = zapcore.InfoLevel) ∨
     (call = LogWarn ∧ lvl = zapcore.WarnLevel) ∨
     (call = LogFatal ∧ lvl = zapcore.FatalLevel) →
     writes st lg (plain_entry lvl rid msg (Some m)) = true →
     ∃ ent,
       written (state_after (call rid msg (Some m) st)) =
         written st ++ [(lg, ent)] ∧
       zapcore.EntryLevel ent = lvl ∧
       zapcore.Message ent = msg ∧
       lookup_field "requestId" (zapcore.Fields ent) =
         Some (zapcore.StringType rid) ∧
       lookup_field "fields" (zapcore.Fields ent) =
         Some (zapcore.ReflectType m)) ∧
  (∀ err cause,
     writes st lg (error_entry rid msg cause (Some m)) = true →
     ¬ already_logged err →
     cause_string err = Some cause →
     ∃ ent,
       written (state_after (LogError rid msg err (Some m) st)) =
         written st ++ [(lg, ent)] ∧
       zapcore.EntryLevel ent = zapcore.ErrorLevel ∧
       zapcore.Message ent = msg ∧
       lookup_field "error" (zapcore.Fields ent) =
         Some (zapcore.StringType cause) ∧
       lookup_field "requestId" (zapcore.Fields ent) =
         Some (zapcore.StringType rid) ∧
       lookup_field "fields" (zapcore.Fields ent) =
         Some (zapcore.ReflectType m)).
Proof.
  intros Hlg. split.
  - intros call lvl Hcall Hw.
    exists (plain_entry lvl rid msg (Some m)).
    split; [|by repeat split].
    destruct Hcall as [[-> ->]|[[-> ->]|[[-> ->]|[-> ->]]]].
    + rewrite (LogDebug_handed _ _ _ _ lg Hlg). simpl.
      rewrite (proj2 (proj2 (proj2 (handed_frame _ _ _)))). by rewrite Hw.
    + rewrite (LogInfo_handed _ _ _ _ lg Hlg). simpl.
      rewrite (proj2 (proj2 (proj2 (handed_frame _ _ _)))). by rewrite Hw.
    + rewrite (LogWarn_handed _ _ _ _ lg Hlg). simpl.
      rewrite (proj2 (proj2 (proj2 (handed_frame _ _ _)))). by rewrite Hw.
    + rewrite (LogFatal_handed _ _ _ _ lg Hlg). simpl.
      rewrite (proj2 (proj2 (handed_fatal_frame st lg
                               (plain_entry zapcore.FatalLevel rid msg (Some m))
                               eq_refl))).
      by rewrite Hw.
  - intros err cause Hw Hnot Hcause.
    rewrite (LogError_unlogged rid msg err (Some m) st lg cause Hnot Hlg Hcause).
    simpl. rewrite (proj2 (proj2 (proj2 (handed_frame _ _ _)))), Hw.
    eexists. by repeat split.
Qed.

(** X19.  When the logger does not write the entry of a [LogError]
    call, because its threshold lies above Error or because its
    sampler drops the entry, the call still returns the new [Error]:
    the error counts as logged although nothing was written, and no
    later [LogError] writes it. *)
Theorem unwritten_error_is_marked_logged (rid msg : string) (err : error)
    (cause : string) (fields : FieldsMap) (st : State) (lg : zap.Logger) :
  zapLogger st = Some lg →
  ¬ already_logged err →
  cause_string err = Some cause →
  writes st lg (error_entry rid msg cause fields) = false →
  ∃ st',
    LogError rid msg err fields st =
      Returned (of_Error (NewError msg cause)) st' ∧
    written st' = written st ∧
    ∀ rid' msg' fields' st'',
      LogError rid' msg' (of_Error (NewError msg cause)) fields' st'' =
        Returned (of_Error (NewError msg cause)) st''.
Proof.
  intros Hlg Hnot Hcause Hw.
  rewrite (LogError_unlogged rid msg err fields st lg cause Hnot Hlg Hcause).
  eexists. split; [reflexivity|]. split.
  - rewrite (proj2 (proj2 (proj2 (handed_frame _ _ _)))), Hw.
    by rewrite app_nil_r.
  - intros rid' msg' fields' st''. apply LogError_logged.
Qed.

(** ** Concrete runs against the specification's wording *)

(** An error that already is an [Error] is logged by neither call of
    the nesting: no entry at all is written, where the specification
    counts one. *)
Lemma nested_logs_none_when_logged :
  ¬ nested_logs_exactly_once "req-1" "boom"
      (of_Error (NewError "boom" "disk full")) initialised.
Proof.
  intros (v & st1 & st2 & w & H1 & _ & Hw & _).
  rewrite LogError_logged in H1. injection H1 as _ <-.
  simpl in Hw. discriminate.
Qed.

(** After [InitLogger("error", "json", false)] the current logger
    drops Info entries, so the fallback of a later call with an
    unknown level writes nothing. *)
Lemma invalid_level_silent_after_error_level :
  ¬ invalid_level_writes_one "internal" "verbose" "json" false error_only.
Proof.
  intros (st' & lg' & w & H & _ & _ & Hw & _).
  vm_compute in H. injection H as <-.
  simpl in Hw. discriminate.
Qed.

(** The same for an unknown format. *)
Lemma invalid_format_silent_after_error_level :
  ¬ invalid_format_writes_one "internal" "info" "xml" false error_only.
Proof.
  intros (st' & lg' & w & H & _ & _ & Hw & _).
  vm_compute in H. injection H as <-.
  simpl in Hw. discriminate.
Qed.

(** A callback that sets the level to Debug wins over the level
    argument "error": [LogDebugEnabled()] is true afterwards. *)
Lemma error_level_overridden_by_callback :
  ¬ error_level_disables_below "internal" "json" false
      [level_override zapcore.DebugLevel] initialised.
Proof.
  intros H.
  assert (Hrun :
    InitLogger "internal" LogLevelError "json" false
      [level_override zapcore.DebugLevel] initialised =
    Returned error_nil
      (installed initialised
         (logger_of (zap.SetLevel zapcore.DebugLevel zap.NewProductionConfig))))
    by reflexivity.
  destruct (H _ Hrun) as [Hd _]. vm_compute in Hd. discriminate.
Qed.

(** After an [InitLogger] whose callback set the level to Fatal,
    [LogError] with a nil cause returns its [Error] and writes
    nothing. *)
Lemma nil_cause_silent_above_error :
  ¬ nil_cause_writes_one "req-1" "boom" fatal_only.
Proof.
  intros (e & st' & w & H & _ & Hw & _).
  vm_compute in H. injection H as _ <-.
  simpl in Hw. discriminate.
Qed.

(** After [init] the threshold is Info: [LogDebug] writes nothing,
    with nil fields or with an empty map. *)
Lemma debug_fields_not_written :
  ¬ fields_shapes_differ (LogDebug "req-1" "hello") initialised.
Proof.
  intros (w_nil & w_empty & Hn & _).
  vm_compute in Hn. discriminate.
Qed.

(** After an [InitLogger] whose callback set the level to Fatal, a
    pointer to an [Error] gets a fresh [Error] back and no entry is
    written for it. *)
Lemma pointer_silent_above_error :
  ¬ pointer_writes_again "req-1" "boom" (NewError "inner" "raw") fatal_only.
Proof.
  intros (e & st' & w & H & Hw & _).
  vm_compute in H. injection H as _ <-.
  simpl in Hw. discriminate.
Qed.

(** ** The properties at concrete inputs *)

(** A fresh cause is logged once by the nesting, after [init]. *)
Lemma LogError_nested_idempotent_run :
  ∃ st1,
    LogError "req-1" "boom" (of_errorString "disk full") None initialised =
      Returned (of_Error (NewError "boom" "disk full")) st1 ∧
    written st1 =
      written initialised ++
      [(default_logger, error_entry "req-1" "boom" "disk full" None)] ∧
    zapcore.EntryLevel (error_entry "req-1" "boom" "disk full" None) =
      zapcore.ErrorLevel.
Proof.
  apply (proj2 (proj2 (LogError_nested_idempotent "req-1" "boom"
                         (of_errorString "disk full") initialised))
           default_logger "disk full").
  - intros [value Hv]. discriminate.
  - reflexivity.
  - reflexivity.
Defined.

(** A nil cause after [init]. *)
Lemma LogError_nil_safe_run :
  ∃ e st' ent,
    LogError "req-1" "boom" error_nil None initialised = Returned (of_Error e) st' ∧
    RawError e = "" ∧
    Error_Error e = "boom" ∧
    written st' =
      written initialised ++
      (if writes initialised default_logger ent
       then [(default_logger, ent)] else []) ∧
    zapcore.EntryLevel ent = zapcore.ErrorLevel ∧
    zapcore.Message ent = "boom" ∧
    lookup_field "error" (zapcore.Fields ent) = Some (zapcore.StringType "") ∧
    lookup_field "requestId" (zapcore.Fields ent) =
      Some (zapcore.StringType "req-1").
Proof.
  apply (LogError_nil_safe "req-1" "boom" initialised default_logger).
  reflexivity.
Defined.

(** The value returned for a cause made by [errors.New]. *)
Lemma LogError_returns_LoggedError_run :
  ∃ e st',
    LogError "req-1" "boom" (of_errorString "disk full") None initialised =
      Returned (of_Error e) st' ∧
    e = NewError "boom" "disk full" ∧
    Error_Error e = "boom" ∧
    RawError e = "disk full".
Proof.
  apply (proj2 (proj2 (LogError_returns_LoggedError "req-1" "boom"
                         (of_errorString "disk full") None initialised))
           default_logger "disk full").
  - intros [value Hv]. discriminate.
  - reflexivity.
  - reflexivity.
Defined.

(** A pointer to an [Error] and a wrapper around one are logged again. *)
Lemma LogError_checks_exact_type_run :
  (∃ st',
     LogError "req-1" "boom" (of_ErrorPtr (Some (NewError "inner" "raw"))) None
       initialised =
       Returned (of_Error (NewError "boom" "inner")) st' ∧
     written st' =
       written initialised ++
       [(default_logger, error_entry "req-1" "boom" "inner" None)]) ∧
  (∃ st',
     LogError "req-1" "boom"
       (of_wrapError "outer: inner" (of_Error (NewError "inner" "raw"))) None
       initialised =
       Returned (of_Error (NewError "boom" "outer: inner")) st' ∧
     written st' =
       written initialised ++
       [(default_logger, error_entry "req-1" "boom" "outer: inner" None)]).
Proof.
  apply (proj2 (LogError_checks_exact_type "req-1" "boom" None initialised)
           default_logger (NewError "inner" "raw") "outer: inner").
  reflexivity.
Defined.

(** The five log calls with nil fields on the development logger,
    which enables every severity and has no sampler. *)
Lemma fields_key_omitted_when_nil_run :
  LogDebug "req-1" "hello" None debugging =
    Returned tt
      (handed debugging debug_logger
         (plain_entry zapcore.DebugLevel "req-1" "hello" None)) ∧
  LogInfo "req-1" "hello" None debugging =
    Returned tt
      (handed debugging debug_logger
         (plain_entry zapcore.InfoLevel "req-1" "hello" None)) ∧
  LogWarn "req-1" "hello" None debugging =
    Returned tt
      (handed debugging debug_logger
         (plain_entry zapcore.WarnLevel "req-1" "hello" None)) ∧
  LogFatal "req-1" "hello" None debugging =
    Exited 1
      (handed_fatal debugging debug_logger
         (plain_entry zapcore.FatalLevel "req-1" "hello" None)) ∧
  LogError "req-1" "hello" (of_errorString "disk full") None debugging =
    Returned (of_Error (NewError "hello" "disk full"))
      (handed debugging debug_logger
         (error_entry "req-1" "hello" "disk full" None)) ∧
  written (handed debugging debug_logger
             (plain_entry zapcore.DebugLevel "req-1" "hello" (Some ∅))) =
    written debugging ++
    [(debug_logger, plain_entry zapcore.DebugLevel "req-1" "hello" (Some ∅))].
Proof.
  pose proof (fields_key_omitted_when_nil "req-1" "hello" debugging
                debug_logger eq_refl)
    as (Hd & Hi & Hw & Hf & He & Hp & _).
  split; [apply Hd|]. split; [apply Hi|]. split; [apply Hw|].
  split; [apply Hf|]. split.
  - apply He; [intros [value Hv]; discriminate|reflexivity].
  - exact (proj1 (Hp zapcore.DebugLevel (Some ∅))).
Defined.

(** After [init] the fallback entry of an unknown level is written. *)
Lemma invalid_level_falls_back_to_info_run :
  getLogLevel "internal" "verbose" initialised =
    Returned zapcore.InfoLevel
      (handed initialised default_logger (level_fallback_entry "internal")) ∧
  written (handed initialised default_logger
             (level_fallback_entry "internal")) =
    written initialised ++
    [(default_logger, level_fallback_entry "internal")].
Proof.
  pose proof (invalid_level_falls_back_to_info "internal" "verbose"
                initialised default_logger
                ltac:(discriminate) ltac:(discriminate) ltac:(discriminate)
                eq_refl) as (H1 & H2 & _).
  split; [exact H1|exact H2].
Defined.

(** After [init] the fallback entry of an unknown format is written. *)
Lemma format_resolves_with_fallback_run :
  getLogFormat "internal" "xml" initialised =
    Returned "json"
      (handed initialised default_logger (format_fallback_entry "internal")) ∧
  written (handed initialised default_logger
             (format_fallback_entry "internal")) =
    written initialised ++
    [(default_logger, format_fallback_entry "internal")].
Proof.
  pose proof (proj1 (proj2 (proj2
                (format_resolves_with_fallback "internal" initialised)))
                "xml" default_logger
                ltac:(discriminate) ltac:(discriminate) eq_refl)
    as (H1 & H2 & _).
  split; [exact H1|exact H2].
Defined.

(** Level "error" with a callback that sets the level to Error
    again: the callback ran and left the level as resolved. *)
Lemma error_level_enabled_checks_run :
  LogDebugEnabled error_only = Returned false error_only ∧
  LogInfoEnabled error_only = Returned false error_only ∧
  LogErrorEnabled error_only = Returned true error_only.
Proof.
  apply (error_level_enabled_checks "internal" "json" false
           [level_override zapcore.ErrorLevel] initialised error_only).
  - intros encoding st1 level st2 config st3 Hf Hl Hcb.
    injection Hf as <- <-. injection Hl as <- <-. by injection Hcb as <- _.
  - reflexivity.
Defined.

(** ** The further properties at concrete inputs *)

(** Development mode, level "debug", format "text", before [init]. *)
Lemma InitLogger_valid_arguments_run :
  ∃ lg',
    InitLogger "internal" "debug" "text" true [] process_start =
      Returned error_nil (installed process_start lg') ∧
    zapcore.LevelEnabler (zap.core lg') =
      (if bool_decide ("debug" = "debug") then zapcore.DebugLevel
       else if bool_decide ("debug" = "info") then zapcore.InfoLevel
       else zapcore.ErrorLevel) ∧
    zapcore.Encoder (zap.core lg') =
      (if bool_decide ("text" = "json") then "json" else "console") ∧
    zapcore.Sinks (zap.core lg') = ["stderr"] ∧
    zap.development lg' = true ∧
    zap.callerSkip lg' = 1.
Proof.
  apply (InitLogger_valid_arguments "internal" "debug" "text" true process_start).
  - by left.
  - by right.
Defined.

(** An unknown level before any logger exists. *)
Lemma InitLogger_fallback_needs_logger_run :
  InitLogger "internal" "verbose" "json" false [] process_start =
    Panicked process_start.
Proof.
  apply (InitLogger_fallback_needs_logger "internal" "verbose" "json" false []
           process_start eq_refl).
  right. repeat split; discriminate.
Defined.

(** The logger installed by [InitLogger("error", "json", false)]. *)
Lemma InitLogger_success_installs_one_logger_run :
  ∃ lg',
    zapLogger error_only = Some lg' ∧
    stdLog error_only = Some lg' ∧
    zap.callerSkip lg' = 1 ∧
    zap.encoderRegistered (zapcore.Encoder (zap.core lg')) = true.
Proof.
  apply (InitLogger_success_installs_one_logger "internal" "error" "json" false
           [] initialised error_only).
  reflexivity.
Defined.

(** [LogInfoEnabled] and [LogInfo] before any logger exists. *)
Lemma calls_without_logger_panic_run :
  LogInfoEnabled process_start = Panicked process_start ∧
  LogInfo "req-1" "hello" None process_start = Panicked process_start.
Proof.
  pose proof (calls_without_logger_panic "req-1" "hello" None process_start
                eq_refl) as H.
  split; [exact (proj1 (proj2 H))|].
  exact (proj1 (proj2 (proj2 (proj2 (proj2 (proj2 (proj2 H))))))).
Defined.

(** The five checks on the default logger. *)
Lemma enabled_checks_monotone_run :
  ∃ d i w e f,
    LogDebugEnabled initialised = Returned d initialised ∧
    LogInfoEnabled initialised = Returned i initialised ∧
    LogWarnEnabled initialised = Returned w initialised ∧
    LogErrorEnabled initialised = Returned e initialised ∧
    LogFatalEnabled initialised = Returned f initialised ∧
    (d = true → i = true) ∧
    (i = true → w = true) ∧
    (w = true → e = true) ∧
    (e = true → f = true).
Proof.
  apply (enabled_checks_monotone initialised default_logger eq_refl).
Defined.

(** On the default logger Debug is off and Info is on. *)
Lemma enabled_check_predicts_write_run :
  LogDebug "req-1" "hello" None initialised = Returned tt initialised ∧
  ∃ st',
    LogInfo "req-1" "hello" None initialised = Returned tt st' ∧
    written st' =
      written initialised ++
      [(default_logger, plain_entry zapcore.InfoLevel "req-1" "hello" None)].
Proof.
  pose proof (enabled_check_predicts_write "req-1" "hello" None initialised
                default_logger eq_refl) as (Hd & Hi & _).
  split.
  - destruct (Hd false eq_refl) as (st' & Hrun & Hsame & _).
    by rewrite Hrun, (Hsame eq_refl).
  - destruct (Hi true eq_refl) as (st' & Hrun & _ & Hw).
    exists st'. split; [exact Hrun|exact Hw].
Defined.

(** [LogFatal] on the default logger. *)
Lemma LogFatal_never_returns_run :
  ∃ st',
    LogFatal "req-1" "giving up" None initialised = Exited 1 st' ∧
    written st' =
      written initialised ++
      [(default_logger,
        plain_entry zapcore.FatalLevel "req-1" "giving up" None)].
Proof.
  apply (proj1 (proj2 (LogFatal_never_returns "req-1" "giving up" None
                         initialised)) default_logger eq_refl).
Defined.

(** The value returned for a fresh cause, handed to a later call with
    other arguments in a process without a logger. *)
Lemma LogError_result_is_final_run :
  LogError "req-2" "again" (of_Error (NewError "boom" "disk full")) (Some ∅)
    process_start =
    Returned (of_Error (NewError "boom" "disk full")) process_start.
Proof.
  apply (LogError_result_is_final "req-1" "boom" (of_errorString "disk full")
           None initialised
           (handed initialised default_logger
              (error_entry "req-1" "boom" "disk full" None))
           (of_Error (NewError "boom" "disk full"))).
  reflexivity.
Defined.

(** [LogWarn] with one field. *)
Lemma entries_carry_arguments_run :
  ∃ ent,
    written (state_after
               (LogWarn "req-1" "slow" (Some {["ms" := VInt 250]}) initialised)) =
      written initialised ++ [(default_logger, ent)] ∧
    zapcore.EntryLevel ent = zapcore.WarnLevel ∧
    zapcore.Message ent = "slow" ∧
    lookup_field "requestId" (zapcore.Fields ent) =
      Some (zapcore.StringType "req-1") ∧
    lookup_field "fields" (zapcore.Fields ent) =
      Some (zapcore.ReflectType {["ms" := VInt 250]}).
Proof.
  apply (proj1 (entries_carry_arguments "req-1" "slow" {["ms" := VInt 250]}
                  initialised default_logger eq_refl) LogWarn zapcore.WarnLevel).
  - right. right. by left.
  - reflexivity.
Defined.

(** A callback names a file as output path on a machine where no
    file opens: the build fails at the sink. *)
Lemma InitLogger_failure_is_partial_run :
  zapLogger (uninstalled no_files) = None ∧
  stdLog (uninstalled no_files) = stdLog no_files ∧
  ∃ ws,
    written (uninstalled no_files) = written no_files ++ ws ∧
    (length ws ≤ 2)%nat.
Proof.
  apply (InitLogger_failure_is_partial "internal" "info" "json" false
           [paths_override ["/var/log/app.log"]] no_files
           (uninstalled no_files)
           (of_wrapError
              ("open sink " +:+ quoted "/var/log/app.log" +:+ ": " +:+
               "permission denied")
              (of_errorString "permission denied"))).
  - intros encoding st1 level st2 config st3 _ _ H. by injection H as _ <-.
  - reflexivity.
  - discriminate.
Defined.

(** The checks after [InitLogger("error", "json", false)]. *)
Lemma callback_free_init_enables_error_run :
  LogErrorEnabled error_only = Returned true error_only ∧
  LogFatalEnabled error_only = Returned true error_only ∧
  ∃ b, LogInfoEnabled error_only = Returned b error_only ∧
       LogWarnEnabled error_only = Returned b error_only.
Proof.
  apply (callback_free_init_enables_error "internal" "error" "json" false
           initialised error_only).
  reflexivity.
Defined.

(** A development call followed by a production call. *)
Lemma InitLogger_last_call_decides_run :
  ∃ st1,
    InitLogger "internal" "debug" "text" true [] initialised =
      Returned error_nil st1 ∧
    InitLogger "internal" "error" "json" false [] st1 =
      InitLogger "internal" "error" "json" false [] initialised.
Proof.
  apply (InitLogger_last_call_decides "internal" "debug" "text" "error" "json"
           true false initialised).
  - by left.
  - by right.
  - right. by right.
  - by left.
Defined.

(** Unknown level and unknown format after [init]: both fallback
    entries are written by the default logger. *)
Lemma InitLogger_both_fallbacks_run :
  ∃ lg',
    InitLogger "internal" "verbose" "xml" true [] initialised =
      Returned error_nil
        (installed
           (handed
              (handed initialised default_logger
                 (format_fallback_entry "internal"))
              default_logger (level_fallback_entry "internal")) lg') ∧
    written
      (handed
         (handed initialised default_logger (format_fallback_entry "internal"))
         default_logger (level_fallback_entry "internal")) =
      written initialised ++
      [(default_logger, format_fallback_entry "internal")] ++
      [(default_logger, level_fallback_entry "internal")] ∧
    zapcore.LevelEnabler (zap.core lg') = zapcore.InfoLevel ∧
    zapcore.Encoder (zap.core lg') = "json" ∧
    zap.development lg' = true.
Proof.
  apply (InitLogger_both_fallbacks "internal" "verbose" "xml" true initialised
           default_logger eq_refl); discriminate.
Defined.

(** Level "error" with a callback that sets Debug. *)
Lemma callback_decides_installed_logger_run :
  ∃ encoding st1 level st2 config st3,
    getLogFormat "internal" "json" initialised = Returned encoding st1 ∧
    getLogLevel "internal" "error" st1 = Returned level st2 ∧
    level_override zapcore.DebugLevel
      (resolved_config false "json" encoding level) st2 =
      Returned config st3 ∧
    zap.encoderRegistered (zap.Encoding config) = true ∧
    installed initialised
      (logger_of (zap.SetLevel zapcore.DebugLevel zap.NewProductionConfig)) =
      installed st3 (logger_of config) ∧
    written
      (installed initialised
         (logger_of (zap.SetLevel zapcore.DebugLevel zap.NewProductionConfig))) =
      written st3.
Proof.
  apply (callback_decides_installed_logger "internal" "error" "json" false
           (level_override zapcore.DebugLevel) [] initialised).
  reflexivity.
Defined.

(** The production logger right after [init]. *)
Lemma fresh_logger_admits_first_entry_run :
  ∃ lg',
    zapLogger initialised = Some lg' ∧
    zap.sampler lg' = Some (100, 100) ∧
    writes initialised lg'
      (plain_entry zapcore.InfoLevel "req-1" "hello" None) =
      zapLog.Enabled (zap.core lg') zapcore.InfoLevel.
Proof.
  destruct (fresh_logger_admits_first_entry "internal" "info" "json" false
              process_start initialised eq_refl) as (lg' & Hlg & Hs & Hw).
  exists lg'. split; [exact Hlg|]. split; [exact Hs|]. apply Hw.
Defined.

(** The hundred-and-first "boom" of the second at Error severity:
    the sampler drops it, the error is marked all the same. *)
Lemma unwritten_error_is_marked_logged_run :
  ∃ st',
    LogError "req-1" "boom" (of_errorString "disk full") None flooded =
      Returned (of_Error (NewError "boom" "disk full")) st' ∧
    written st' = written flooded ∧
    LogError "req-2" "boom" (of_Error (NewError "boom" "disk full")) None st' =
      Returned (of_Error (NewError "boom" "disk full")) st'.
Proof.
  destruct (unwritten_error_is_marked_logged "req-1" "boom"
              (of_errorString "disk full") "disk full" None flooded
              default_logger eq_refl) as (st' & Hrun & Hw & Hlater).
  - intros [value Hv]. discriminate.
  - reflexivity.
  - vm_compute. reflexivity.
  - exists st'. split; [exact Hrun|]. split; [exact Hw|]. apply Hlater.
Defined.
